(** * paper-search-mcp: the arXiv adapter and its tool-call boundary

    A shallow embedding of [academic_platforms/arxiv.py] and [server.py].

    - Python [str] values are lists of Unicode code points ([Str.str]).
    - Exceptions are values of [exn]; a computation that may raise returns a
      [result].  Code that also talks to the outside (one HTTP request,
      lines printed on standard output) is a computation in [M]: its result
      together with the trace of events it produced, in order.
    - The libraries the adapter calls ([requests], [feedparser],
      [datetime.strptime], [PyPDF2]) and the remote service behind them are
      gathered in a [World] record; every definition of the adapter takes
      the world as a parameter and is otherwise a line-by-line transcription
      of the Python source. *)

From Stdlib Require Import List ZArith NArith Lia Bool String Ascii.
From Stdlib Require Import Strings.Byte.
From Stdlib Require Import DecimalString.
Import ListNotations.

(* ================================================================== *)
(** ** Python strings *)

Module Str.

Definition char := N.
Definition str := list char.

(** An ASCII literal of the source, as code points. *)
Definition lit (s : string) : str :=
  List.map N_of_ascii (list_ascii_of_string s).

Fixpoint eqb (a b : str) : bool :=
  match a, b with
  | [], [] => true
  | x :: a', y :: b' => N.eqb x y && eqb a' b'
  | _, _ => false
  end.

(** Truth value of a string: [if s:] holds for every non-empty string. *)
Definition truthy (s : str) : bool :=
  match s with [] => false | _ :: _ => true end.

Definition slash : char := 47%N.
Definition newline : char := 10%N.

(** [str.isspace] on one code point (CPython's [_PyUnicode_IsWhitespace]). *)
Definition isspace (c : char) : bool :=
  ((9 <=? c) && (c <=? 13) || (28 <=? c) && (c <=? 32)
   || (c =? 133) || (c =? 160) || (c =? 5760)
   || (8192 <=? c) && (c <=? 8202)
   || (c =? 8232) || (c =? 8233) || (c =? 8239) || (c =? 8287)
   || (c =? 12288))%N.

Fixpoint lstrip (s : str) : str :=
  match s with
  | [] => []
  | c :: s' => if isspace c then lstrip s' else s
  end.

Definition rstrip (s : str) : str := rev (lstrip (rev s)).

(** [s.strip()] *)
Definition strip (s : str) : str := rstrip (lstrip s).

(** [s.split(sep)] for a one-character separator: the maximal runs between
    occurrences of [sep], so the result is never the empty list. *)
Fixpoint split (sep : char) (s : str) : list str :=
  match s with
  | [] => [[]]
  | c :: s' =>
      if N.eqb c sep then [] :: split sep s'
      else match split sep s' with
           | [] => [[c]]
           | seg :: segs => (c :: seg) :: segs
           end
  end.

End Str.

Import Str.

(* ================================================================== *)
(** ** Exceptions, results and traced computations *)

(** The exception classes that occur; all of them derive from [Exception]. *)
Inductive exn : Type :=
| NotImplementedError
| AttributeError (name : string)
| IndexError
| ValueError (msg : str)
| ConnectionError
| ReadTimeout
| HTTPError (status : Z)
| PdfReadError
| OtherError (msg : str).

Inductive result (A : Type) : Type :=
| Ok (a : A)
| Raise (e : exn).

Arguments Ok {A} a.
Arguments Raise {A} e.

Definition rbind {A B} (m : result A) (k : A -> result B) : result B :=
  match m with
  | Ok a => k a
  | Raise e => Raise e
  end.

Notation "'let?' x ':=' m 'in' k" :=
  (rbind m (fun x => k))
  (at level 10, x name, m at level 100, k at level 200).

(** [[f x for x in xs]] where [f] may raise: left to right, stopping at the
    first exception. *)
Fixpoint comprehension {A B} (f : A -> result B) (xs : list A) : result (list B) :=
  match xs with
  | [] => Ok []
  | x :: xs' =>
      let? y := f x in
      let? ys := comprehension f xs' in
      Ok (y :: ys)
  end.

(** [o.name]: an attribute that is absent raises [AttributeError]. *)
Definition getattr {A} (name : string) (o : option A) : result A :=
  match o with
  | Some a => Ok a
  | None => Raise (AttributeError name)
  end.

(** [l[-1]] *)
Fixpoint index_last {A} (l : list A) : result A :=
  match l with
  | [] => Raise IndexError
  | [x] => Ok x
  | _ :: l' => index_last l'
  end.

(** Values stored in request parameters and serialized records.  The
    items of a list are strings or [None]. *)
Record datetime := {
  year : Z; month : Z; day : Z; hour : Z; minute : Z; second : Z
}.

Inductive pyval : Type :=
| VStr (s : str)
| VInt (n : Z)
| VList (l : list (option str))
| VDate (d : datetime).

Definition Dict := list (str * pyval).

(** What a call does to the outside, in order. *)
Inductive event : Type :=
| HttpGet (url : str) (params : Dict)
| Stdout (line : str).

Definition M (A : Type) : Type := (result A * list event)%type.

Definition ret {A} (a : A) : M A := (Ok a, []).

Definition raise {A} (e : exn) : M A := (Raise e, []).

Definition lift {A} (r : result A) : M A := (r, []).

Definition bind {A B} (m : M A) (k : A -> M B) : M B :=
  match m with
  | (Ok a, t) => let (r, t') := k a in (r, t ++ t')
  | (Raise e, t) => (Raise e, t)
  end.

(** [try: m except Exception as e: h e] *)
Definition try_except {A} (m : M A) (h : exn -> M A) : M A :=
  match m with
  | (Ok a, t) => (Ok a, t)
  | (Raise e, t) => let (r, t') := h e in (r, t ++ t')
  end.

Definition print (line : str) : M unit := (Ok tt, [Stdout line]).

Notation "x <- m ;; k" := (bind m (fun x => k))
  (at level 61, m at next level, right associativity).
Notation "m ;;; k" := (bind m (fun _ => k))
  (at level 61, right associativity).

(** The value a computation returns, if it returns one. *)
Definition returned {A} (m : M A) : option A :=
  match fst m with
  | Ok a => Some a
  | Raise _ => None
  end.

(** [for x in xs: s = body s x] *)
Fixpoint for_each {A S} (body : S -> A -> M S) (xs : list A) (s : S) : M S :=
  match xs with
  | [] => ret s
  | x :: xs' => s' <- body s x ;; for_each body xs' s'
  end.

(* ================================================================== *)
(** ** The outside world *)

Definition bytes := list byte.

(** [requests.Response], as far as the adapter looks at it. *)
Record Response := {
  status_code : Z;
  content : bytes
}.

(** [Response.raise_for_status()] of the [requests] library: an [HTTPError]
    for a 4xx or 5xx status, nothing otherwise. *)
Definition raise_for_status (r : Response) : result unit :=
  if ((400 <=? status_code r) && (status_code r <? 600))%Z
  then Raise (HTTPError (status_code r))
  else Ok tt.

(** Entries of a parsed feed.  A field is the outcome of reading the
    attribute of that name: [None] when the attribute is absent. *)
Record Author := { author_name : option str }.

Record Link := { link_href : option str; link_type : option str }.

(** A tag may carry its [term] attribute with the value [None]: reading
    it raises nothing and yields [None]. *)
Record Tag := { tag_term : option (option str) }.

Record Entry := {
  entry_id : option str;
  entry_title : option str;
  entry_summary : option str;
  entry_published : option str;
  entry_updated : option str;
  entry_authors : option (list Author);
  entry_links : option (list Link);
  entry_tags : option (list Tag);
  entry_doi : option str
}.

Record Feed := { entries : list Entry }.

Record World := {
  (** [requests.get(url, params=...)]: the response, or the transport
      failure it raises. *)
  requests_get : str -> Dict -> result Response;
  (** [feedparser.parse(content)]: the parsed feed; it never raises. *)
  feedparser_parse : bytes -> Feed;
  (** [datetime.strptime(s, format)] *)
  strptime : str -> str -> result datetime;
  (** [PdfReader(BytesIO(content)).pages]: the document's pages in order,
      each one given by the outcome of its [extract_text()]. *)
  PdfReader : bytes -> result (list (result str));
  (** [str(e)], as rendered by the library that raised [e]. *)
  exn_str : exn -> str
}.

(* ================================================================== *)
(** ** The paper record *)

(** Modelled from the spec: the [Paper] class of the [paper] module, which
    the adapter imports and whose source is not part of the two files
    embedded here.  A pure value with the twelve attributes of the data
    model; construction performs no validation. *)
Record Paper := {
  paper_id : str;
  title : str;
  authors : list str;
  abstract : str;
  url : str;
  pdf_url : str;
  published_date : datetime;
  updated_date : datetime;
  source : str;
  categories : list (option str);
  keywords : list str;
  doi : str
}.

(** Modelled from the spec: [Paper.to_dict], the serialization operation
    producing a mapping from field name to value. *)
Definition to_dict (p : Paper) : Dict :=
  [ (lit "paper_id", VStr (paper_id p));
    (lit "title", VStr (title p));
    (lit "authors", VList (List.map Some (authors p)));
    (lit "abstract", VStr (abstract p));
    (lit "url", VStr (url p));
    (lit "pdf_url", VStr (pdf_url p));
    (lit "published_date", VDate (published_date p));
    (lit "updated_date", VDate (updated_date p));
    (lit "source", VStr (source p));
    (lit "categories", VList (categories p));
    (lit "keywords", VList (List.map Some (keywords p)));
    (lit "doi", VStr (doi p)) ].

(* ================================================================== *)
(** ** academic_platforms/arxiv.py *)

Module Arxiv.

(** The method table of a class and the class it derives from. *)
Record methods := {
  def_search : option (World -> str -> Z -> M (list Paper));
  def_download_pdf : option (World -> str -> str -> M str);
  def_read_paper : option (World -> str -> M str)
}.

(** A class is [object] or derives from one base class. *)
Inductive pyclass : Type :=
| object
| PyClass (own : methods) (base : pyclass).

(** Attribute lookup along the chain of base classes. *)
Fixpoint resolve {A} (sel : methods -> option A) (c : pyclass) : option A :=
  match c with
  | object => None
  | PyClass own base =>
      match sel own with
      | Some m => Some m
      | None => resolve sel base
      end
  end.

(** *** class PaperSource *)

(** [search(self, query, **kwargs)]: the only keyword a caller passes is
    [max_results]. *)
Definition PaperSource_search (w : World) (query : str) (kwargs : Z)
  : M (list Paper) :=
  raise NotImplementedError.

Definition PaperSource_download_pdf (w : World) (paper_id save_path : str)
  : M str :=
  raise NotImplementedError.

Definition PaperSource_read_paper (w : World) (paper_id : str) : M str :=
  raise NotImplementedError.

Definition PaperSource : pyclass :=
  PyClass {| def_search := Some PaperSource_search;
             def_download_pdf := Some PaperSource_download_pdf;
             def_read_paper := Some PaperSource_read_paper |}
          object.

(** *** class ArxivSearcher(PaperSource) *)

Definition BASE_URL : str := lit "http://export.arxiv.org/api/query".

Definition timestamp_format : str := lit "%Y-%m-%dT%H:%M:%SZ".

(** [next((link.href for link in links if link.type == 'application/pdf'), '')]:
    the generator reads [link.type] of each link in turn and stops at the
    first match, whose [href] it yields. *)
Fixpoint next_pdf_href (links : list Link) : result str :=
  match links with
  | [] => Ok (lit "")
  | link :: links' =>
      let? ty := getattr "type" (link_type link) in
      if Str.eqb ty (lit "application/pdf")
      then getattr "href" (link_href link)
      else next_pdf_href links'
  end.

(** The [params] dictionary built by [search]. *)
Definition search_params (query : str) (max_results : Z) : Dict :=
  [ (lit "search_query", VStr query);
    (lit "max_results", VInt max_results);
    (lit "sortBy", VStr (lit "submittedDate"));
    (lit "sortOrder", VStr (lit "descending")) ].

(** The address built by [read_paper]. *)
Definition pdf_address (paper_id : str) : str :=
  lit "https://arxiv.org/pdf/" ++ paper_id ++ lit ".pdf".

Section WithWorld.

Variable w : World.

(** [requests.get]: one request to the outside, then the response or
    the exception. *)
Definition get (url : str) (params : Dict) : M Response :=
  (requests_get w url params, [HttpGet url params]).

(** The body of the [try] block in the loop of [search], up to the
    record handed to [papers.append]. *)
Definition parse_entry (entry : Entry) : result Paper :=
  let? author_list := getattr "authors" (entry_authors entry) in
  let? authors :=
    comprehension (fun author => getattr "name" (author_name author))
                  author_list in
  let? published_s := getattr "published" (entry_published entry) in
  let? published := strptime w published_s timestamp_format in
  let? updated_s := getattr "updated" (entry_updated entry) in
  let? updated := strptime w updated_s timestamp_format in
  let? links := getattr "links" (entry_links entry) in
  let? pdf_url := next_pdf_href links in
  let? id := getattr "id" (entry_id entry) in
  let? paper_id := index_last (split slash id) in
  let? title := getattr "title" (entry_title entry) in
  let? summary := getattr "summary" (entry_summary entry) in
  let? url := getattr "id" (entry_id entry) in
  let? tags := getattr "tags" (entry_tags entry) in
  let? categories :=
    comprehension (fun tag => getattr "term" (tag_term tag)) tags in
  let doi := match entry_doi entry with Some d => d | None => lit "" end in
  Ok {| paper_id := paper_id;
        title := title;
        authors := authors;
        abstract := summary;
        url := url;
        pdf_url := pdf_url;
        published_date := published;
        updated_date := updated;
        source := lit "arxiv";
        categories := categories;
        keywords := [];
        doi := doi |}.

(** One turn of the loop: [try: papers.append(Paper(...))] and
    [except Exception as e: print(...)]. *)
Definition search_body (papers : list Paper) (entry : Entry)
  : M (list Paper) :=
  try_except
    (paper <- lift (parse_entry entry) ;;
     ret (papers ++ [paper]))
    (fun e =>
       print (lit "Error parsing arXiv entry: " ++ exn_str w e) ;;;
       ret papers).

Definition search (query : str) (max_results : Z) : M (list Paper) :=
  let params := search_params query max_results in
  response <- get BASE_URL params ;;
  let feed := feedparser_parse w (content response) in
  for_each search_body (entries feed) [].

Definition read_paper_body (text : str) (page : result str) : M str :=
  extracted <- lift page ;;
  ret (if truthy extracted then text ++ (extracted ++ [newline]) else text).

Definition read_paper (paper_id : str) : M str :=
  let pdf_url := pdf_address paper_id in
  try_except
    (response <- get pdf_url [] ;;
     lift (raise_for_status response) ;;;
     pages <- lift (PdfReader w (content response)) ;;
     text <- for_each read_paper_body pages (lit "") ;;
     ret (strip text))
    (fun e =>
       print (lit "Error reading PDF for paper " ++ paper_id
              ++ lit ": " ++ exn_str w e) ;;;
       ret (lit "")).

End WithWorld.

Definition ArxivSearcher : pyclass :=
  PyClass {| def_search := Some search;
             def_download_pdf := None;
             def_read_paper := Some read_paper |}
          PaperSource.

(** Method calls on an instance of class [c]. *)
Definition call_search (c : pyclass) (w : World) (query : str)
           (max_results : Z) : M (list Paper) :=
  match resolve def_search c with
  | Some m => m w query max_results
  | None => raise (AttributeError "search")
  end.

Definition call_download_pdf (c : pyclass) (w : World)
           (paper_id save_path : str) : M str :=
  match resolve def_download_pdf c with
  | Some m => m w paper_id save_path
  | None => raise (AttributeError "download_pdf")
  end.

Definition call_read_paper (c : pyclass) (w : World) (paper_id : str)
  : M str :=
  match resolve def_read_paper c with
  | Some m => m w paper_id
  | None => raise (AttributeError "read_paper")
  end.

End Arxiv.

(* ================================================================== *)
(** ** server.py *)

Module Server.

Import Arxiv.

(** [arxiv_searcher = ArxivSearcher()] *)
Definition arxiv_searcher : pyclass := ArxivSearcher.

(** The value of [max_results] when the caller leaves it out. *)
Definition default_max_results : Z := 10.

Section WithWorld.

Variable w : World.

(** The [async with httpx.AsyncClient()] block opens and closes a client
    that is never used and lets exceptions through. *)
Definition async_search_arxiv (query : str) (max_results : Z)
  : M (list Dict) :=
  papers <- call_search arxiv_searcher w query max_results ;;
  ret (List.map to_dict papers).

Definition search_arxiv (query : str) (max_results : Z) : M (list Dict) :=
  papers <- async_search_arxiv query max_results ;;
  ret (match papers with [] => [] | _ :: _ => papers end).

Definition read_arxiv_paper (paper_id : str) : M str :=
  try_except
    (call_read_paper arxiv_searcher w paper_id)
    (fun e =>
       print (lit "Error reading paper " ++ paper_id
              ++ lit ": " ++ exn_str w e) ;;;
       ret (lit "")).

End WithWorld.

End Server.

(* ================================================================== *)
(** ** Vocabulary of the specification *)

Module Spec.

Import Arxiv.

(** The entries of the feed that a response carries. *)
Definition response_entries (w : World) (resp : Response) : list Entry :=
  entries (feedparser_parse w (content resp)).

(** An entry is well formed when parsing it raises nothing. *)
Definition well_formed (w : World) (e : Entry) : bool :=
  match parse_entry w e with
  | Ok _ => true
  | Raise _ => false
  end.

(** An entry that carries every attribute [search] reads, with a name for
    each author, a type and an address for each link, a term for each tag
    and two timestamps that [strptime] accepts. *)
Definition complete (w : World) (e : Entry) : Prop :=
  exists id title summary published updated author_list links tags,
    entry_id e = Some id
    /\ entry_title e = Some title
    /\ entry_summary e = Some summary
    /\ entry_published e = Some published
    /\ entry_updated e = Some updated
    /\ entry_authors e = Some author_list
    /\ entry_links e = Some links
    /\ entry_tags e = Some tags
    /\ Forall (fun a => author_name a <> None) author_list
    /\ Forall (fun l => link_type l <> None /\ link_href l <> None) links
    /\ Forall (fun t => tag_term t <> None) tags
    /\ (exists d, strptime w published timestamp_format = Ok d)
    /\ (exists d, strptime w updated timestamp_format = Ok d).

(** The records of the well-formed entries, in feed order. *)
Fixpoint parsed (w : World) (es : list Entry) : list Paper :=
  match es with
  | [] => []
  | e :: es' =>
      match parse_entry w e with
      | Ok p => p :: parsed w es'
      | Raise _ => parsed w es'
      end
  end.

(** One diagnostic line per malformed entry, in feed order. *)
Fixpoint diagnostics (w : World) (es : list Entry) : list event :=
  match es with
  | [] => []
  | e :: es' =>
      match parse_entry w e with
      | Ok _ => diagnostics w es'
      | Raise ex =>
          Stdout (lit "Error parsing arXiv entry: " ++ exn_str w ex)
          :: diagnostics w es'
      end
  end.

(** [seg] is the last path segment of [id]: what follows the last slash,
    or all of [id] when it has none. *)
Definition is_last_segment (id seg : str) : Prop :=
  ~ In slash seg /\ (id = seg \/ exists pre, id = pre ++ slash :: seg).

Definition ends_with_slash (id : str) : Prop :=
  exists pre, id = pre ++ [slash].

Definition pdf_type : str := lit "application/pdf".

(** [l] is the first link of [links] that declares the PDF media type. *)
Definition first_pdf_link (links : list Link) (l : Link) : Prop :=
  exists pre post,
    links = pre ++ l :: post
    /\ Forall (fun l' => link_type l' <> Some pdf_type) pre
    /\ link_type l = Some pdf_type.

Definition no_pdf_link (links : list Link) : Prop :=
  Forall (fun l => link_type l <> Some pdf_type) links.

(** The page texts in page order, each non-empty one followed by a
    newline, empty ones left out. *)
Definition joined (texts : list str) : str :=
  List.concat (List.map (fun t => t ++ [newline]) (filter truthy texts)).

(** [res] is [s] without its leading and trailing whitespace. *)
Definition trimmed_of (s res : str) : Prop :=
  exists pre post,
    s = pre ++ res ++ post
    /\ Forall (fun c => isspace c = true) pre
    /\ Forall (fun c => isspace c = true) post
    /\ (forall c r, res = c :: r -> isspace c = false)
    /\ (forall c r, res = r ++ [c] -> isspace c = false).

(** The fetch of the PDF fails: the transport raises, or the response
    carries an error status. *)
Definition fetch_fails (w : World) (paper_id : str) : bool :=
  match requests_get w (pdf_address paper_id) [] with
  | Raise _ => true
  | Ok r => ((400 <=? status_code r) && (status_code r <? 600))%Z
  end.

End Spec.

(* ================================================================== *)
(** ** Sample worlds *)

Module Sample.

Import Arxiv.

Definition digit (c : char) : option Z :=
  if ((48 <=? c) && (c <=? 57))%N then Some (Z.of_N c - 48)%Z else None.

Fixpoint number (n : nat) (acc : Z) (s : str) : option (Z * str) :=
  match n with
  | O => Some (acc, s)
  | S n' =>
      match s with
      | [] => None
      | c :: s' =>
          match digit c with
          | Some d => number n' (10 * acc + d)%Z s'
          | None => None
          end
      end
  end.

Definition field (n : nat) (sep : string) (s : str) : option (Z * str) :=
  match number n 0%Z s with
  | Some (v, c :: s') =>
      if Str.eqb [c] (lit sep) then Some (v, s') else None
  | _ => None
  end.

Definition between (lo v hi : Z) : bool := ((lo <=? v) && (v <=? hi))%Z.

(** A strict reader of [YYYY-MM-DDTHH:MM:SSZ]: it accepts only timestamps
    that [datetime.strptime] accepts with that format. *)
Definition strptime_strict (s fmt : str) : result datetime :=
  if negb (Str.eqb fmt timestamp_format)
  then Raise (ValueError (lit "unsupported format"))
  else
    match field 4 "-" s with
    | Some (y, s1) =>
    match field 2 "-" s1 with
    | Some (mo, s2) =>
    match field 2 "T" s2 with
    | Some (d, s3) =>
    match field 2 ":" s3 with
    | Some (h, s4) =>
    match field 2 ":" s4 with
    | Some (mi, s5) =>
    match field 2 "Z" s5 with
    | Some (se, []) =>
        if between 1 y 9999 && between 1 mo 12 && between 1 d 28
           && between 0 h 23 && between 0 mi 59 && between 0 se 59
        then Ok {| year := y; month := mo; day := d;
                   hour := h; minute := mi; second := se |}
        else Raise (ValueError (lit "time data out of range"))
    | _ => Raise (ValueError (lit "time data does not match format"))
    end
    | _ => Raise (ValueError (lit "time data does not match format"))
    end
    | _ => Raise (ValueError (lit "time data does not match format"))
    end
    | _ => Raise (ValueError (lit "time data does not match format"))
    end
    | _ => Raise (ValueError (lit "time data does not match format"))
    end
    | _ => Raise (ValueError (lit "time data does not match format"))
    end.

Definition render (e : exn) : str :=
  match e with
  | NotImplementedError => lit ""
  | AttributeError name => lit "object has no attribute " ++ lit name
  | IndexError => lit "list index out of range"
  | ValueError msg => msg
  | ConnectionError => lit "connection refused"
  | ReadTimeout => lit "timed out"
  | HTTPError _ => lit "error status"
  | PdfReadError => lit "EOF marker not found"
  | OtherError msg => msg
  end.

(** A world that answers the search request with [search_outcome], whose
    body parses to [feed], and the PDF request with [pdf_outcome], whose
    body holds [pages]. *)
Definition world (search_outcome : result Response) (feed : Feed)
           (pdf_outcome : result Response)
           (pages : result (list (result str))) : World :=
  {| requests_get := fun url _ =>
       if Str.eqb url BASE_URL then search_outcome else pdf_outcome;
     feedparser_parse := fun _ => feed;
     strptime := strptime_strict;
     PdfReader := fun _ => pages;
     exn_str := render |}.

Definition ok_response : Response := {| status_code := 200; content := [] |}.

Definition not_found : Response := {| status_code := 404; content := [] |}.

Definition server_error : Response := {| status_code := 500; content := [] |}.

(** An entry as arXiv serves it. *)
Definition entry (id title : string) : Entry :=
  {| entry_id := Some (lit id);
     entry_title := Some (lit title);
     entry_summary := Some (lit "An abstract.");
     entry_published := Some (lit "2021-07-26T17:59:59Z");
     entry_updated := Some (lit "2021-07-28T09:00:00Z");
     entry_authors := Some [ {| author_name := Some (lit "A. Author") |};
                             {| author_name := Some (lit "B. Author") |} ];
     entry_links :=
       Some [ {| link_href := Some (lit id);
                 link_type := Some (lit "text/html") |};
              {| link_href := Some (lit "http://arxiv.org/pdf/2107.12345v1");
                 link_type := Some (lit "application/pdf") |};
              {| link_href := Some (lit "http://mirror.example/x.pdf");
                 link_type := Some (lit "application/pdf") |} ];
     entry_tags := Some [ {| tag_term := Some (Some (lit "cs.LG")) |} ];
     entry_doi := None |}.

(** The record that [entry id title] parses to, [tail] being the last
    path segment of [id]. *)
Definition paper (id tail title : string) : Paper :=
  {| paper_id := lit tail;
     title := lit title;
     authors := [lit "A. Author"; lit "B. Author"];
     abstract := lit "An abstract.";
     url := lit id;
     pdf_url := lit "http://arxiv.org/pdf/2107.12345v1";
     published_date := {| year := 2021; month := 7; day := 26;
                          hour := 17; minute := 59; second := 59 |};
     updated_date := {| year := 2021; month := 7; day := 28;
                        hour := 9; minute := 0; second := 0 |};
     source := lit "arxiv";
     categories := [Some (lit "cs.LG")];
     keywords := [];
     doi := lit "" |}.

Definition entry_A : Entry := entry "http://arxiv.org/abs/2107.12345v1" "A".

Definition paper_A : Paper :=
  paper "http://arxiv.org/abs/2107.12345v1" "2107.12345v1" "A".

Definition paper_B : Paper :=
  paper "http://arxiv.org/abs/2107.00001v2" "2107.00001v2" "B".

Definition entry_B : Entry := entry "http://arxiv.org/abs/2107.00001v2" "B".

(** [entry_A] without its [published] field. *)
Definition entry_unpublished : Entry :=
  {| entry_id := entry_id entry_A;
     entry_title := entry_title entry_A;
     entry_summary := entry_summary entry_A;
     entry_published := None;
     entry_updated := entry_updated entry_A;
     entry_authors := entry_authors entry_A;
     entry_links := entry_links entry_A;
     entry_tags := entry_tags entry_A;
     entry_doi := entry_doi entry_A |}.

(** An entry whose identifier ends in a slash. *)
Definition entry_slash : Entry := entry "http://arxiv.org/abs/" "C".

(** An entry that advertises no PDF link. *)
Definition entry_no_pdf : Entry :=
  {| entry_id := entry_id entry_B;
     entry_title := entry_title entry_B;
     entry_summary := entry_summary entry_B;
     entry_published := entry_published entry_B;
     entry_updated := entry_updated entry_B;
     entry_authors := entry_authors entry_B;
     entry_links :=
       Some [ {| link_href := Some (lit "http://arxiv.org/abs/2107.00001v2");
                 link_type := Some (lit "text/html") |} ];
     entry_tags := entry_tags entry_B;
     entry_doi := Some (lit "10.1000/xyz") |}.

Definition no_pages : result (list (result str)) := Ok [].

(** The search request succeeds with the given entries. *)
Definition feed_world (es : list Entry) : World :=
  world (Ok ok_response) {| entries := es |} (Ok not_found) no_pages.

(** A feed whose second entry is malformed. *)
Definition mixed_entries : list Entry :=
  [entry_A; entry_unpublished; entry_B].

Definition mixed_world : World := feed_world mixed_entries.

(** A feed of two well-formed entries. *)
Definition two_world : World := feed_world [entry_A; entry_B].

(** A feed whose only entry has an identifier ending in a slash. *)
Definition slash_world : World := feed_world [entry_slash].

(** The search request is answered by an error page. *)
Definition error_page_world (r : Response) : World :=
  world (Ok r) {| entries := [] |} (Ok r) no_pages.

(** The remote service cannot be reached. *)
Definition offline_world : World :=
  world (Raise ConnectionError) {| entries := [] |}
        (Raise ConnectionError) no_pages.

(** The PDF request succeeds with the given page texts. *)
Definition pdf_world (texts : list str) : World :=
  world (Ok ok_response) {| entries := [] |} (Ok ok_response)
        (Ok (List.map Ok texts)).

End Sample.

(* ================================================================== *)
(** ** academic_platforms/arxiv.py, the script run as [__main__] *)

Module Script.

Import Arxiv.

(** [str(n)] of a length or a position. *)
Definition str_of_nat (n : nat) : str :=
  lit (NilZero.string_of_uint (Nat.to_uint n)).

(** The bound of the slice [text_content[:5000]]. *)
Definition excerpt_chars : nat := 5000.

(** [NameError], raised when a name is read that no assignment has bound;
    it derives from [Exception] and is carried with its message. *)
Definition NameError (name : string) : exn :=
  OtherError (lit "name '" ++ lit name ++ lit "' is not defined").

Section WithWorld.

Variable w : World.

(** One turn of [for i, paper in enumerate(papers, 1): print(...)]. *)
Definition listing_body (i : nat) (paper : Paper) : M nat :=
  print (str_of_nat i ++ lit ". " ++ title paper
         ++ lit " (ID: " ++ paper_id paper ++ lit ")") ;;;
  ret (S i).

(** The first [try] statement.  The value is the binding of the name
    [papers] afterwards: [None] when the assignment was never reached. *)
Definition search_test (searcher : pyclass) (query : str) (max_results : Z)
  : M (option (list Paper)) :=
  try_except
    (papers <- call_search searcher w query max_results ;;
     print (lit "Found " ++ str_of_nat (List.length papers)
            ++ lit " papers for query '" ++ query ++ lit "':") ;;;
     for_each listing_body papers 1 ;;;
     ret (Some papers))
    (fun e =>
       print (lit "Error during search: " ++ exn_str w e) ;;;
       ret None).

(** The statement [if papers: ...] once [papers] is bound. *)
Definition read_test (searcher : pyclass) (papers : list Paper) : M unit :=
  match papers with
  | [] => ret tt
  | first :: _ =>
      print ([newline] ++ lit "Testing in-memory PDF reading...") ;;;
      let paper_id := paper_id first in
      try_except
        (text_content <- call_read_paper searcher w paper_id ;;
         print ([newline]
                ++ lit "First 500 characters of the paper content:") ;;;
         print (firstn excerpt_chars text_content ++ lit "...") ;;;
         print ([newline] ++ lit "Total length of extracted text: "
                ++ str_of_nat (List.length text_content)
                ++ lit " characters"))
        (fun e =>
           print (lit "Error during paper reading: " ++ exn_str w e))
  end.

Definition main : M unit :=
  let searcher := ArxivSearcher in
  print (lit "Testing search functionality...") ;;;
  let query := lit "machine learning" in
  let max_results := 5%Z in
  binding <- search_test searcher query max_results ;;
  match binding with
  | None => raise (NameError "papers")
  | Some papers => read_test searcher papers
  end.

End WithWorld.

End Script.

(* ================================================================== *)
(** ** Vocabulary for traces, links and texts *)

Module Trace.

Import Spec.

Definition is_request (ev : event) : bool :=
  match ev with
  | HttpGet _ _ => true
  | Stdout _ => false
  end.

(** The requests of a trace, in order. *)
Definition requests (t : list event) : list event := filter is_request t.

Definition is_line (ev : event) : Prop := exists line, ev = Stdout line.

(** A string that neither begins nor ends with whitespace. *)
Definition no_edge_space (s : str) : Prop :=
  (forall c r, s = c :: r -> isspace c = false)
  /\ (forall c r, s = r ++ [c] -> isspace c = false).

(** A string of whitespace only. *)
Definition blank (s : str) : Prop := Forall (fun c => isspace c = true) s.

(** A link that declares a media type other than PDF. *)
Definition other_type (l : Link) : Prop :=
  exists ty, link_type l = Some ty /\ ty <> pdf_type.

(** The outcome of a computation without its trace. *)
Definition outcome {A B} (f : A -> B) (m : M A) : result B :=
  match fst m with
  | Ok a => Ok (f a)
  | Raise e => Raise e
  end.

End Trace.

(* ================================================================== *)
(** ** More sample worlds *)

Module Cases.

Import Arxiv Sample.

(** [entry_A] with a timestamp that is not in the expected format. *)
Definition entry_bad_date : Entry :=
  {| entry_id := entry_id entry_A;
     entry_title := entry_title entry_A;
     entry_summary := entry_summary entry_A;
     entry_published := Some (lit "26 Jul 2021");
     entry_updated := entry_updated entry_A;
     entry_authors := entry_authors entry_A;
     entry_links := entry_links entry_A;
     entry_tags := entry_tags entry_A;
     entry_doi := entry_doi entry_A |}.

Definition html_link : Link :=
  {| link_href := Some (lit "http://arxiv.org/abs/2107.12345v1");
     link_type := Some (lit "text/html") |}.

Definition pdf_link : Link :=
  {| link_href := Some (lit "http://arxiv.org/pdf/2107.12345v1");
     link_type := Some (lit "application/pdf") |}.

(** A link without an address. *)
Definition hrefless_link : Link :=
  {| link_href := None;
     link_type := Some (lit "text/html") |}.

(** [entry_A] with the given links. *)
Definition entry_with_links (links : list Link) : Entry :=
  {| entry_id := entry_id entry_A;
     entry_title := entry_title entry_A;
     entry_summary := entry_summary entry_A;
     entry_published := entry_published entry_A;
     entry_updated := entry_updated entry_A;
     entry_authors := entry_authors entry_A;
     entry_links := Some links;
     entry_tags := entry_tags entry_A;
     entry_doi := entry_doi entry_A |}.

(** [entry_A] with the given tags. *)
Definition entry_with_tags (tags : list Tag) : Entry :=
  {| entry_id := entry_id entry_A;
     entry_title := entry_title entry_A;
     entry_summary := entry_summary entry_A;
     entry_published := entry_published entry_A;
     entry_updated := entry_updated entry_A;
     entry_authors := entry_authors entry_A;
     entry_links := entry_links entry_A;
     entry_tags := Some tags;
     entry_doi := entry_doi entry_A |}.

(** An entry with a category that has no term: its tag carries [None]. *)
Definition entry_termless : Entry :=
  entry_with_tags [ {| tag_term := Some None |} ].

(** An entry with a link without address after its PDF link. *)
Definition entry_trailing_link : Entry :=
  entry_with_links [html_link; pdf_link; hrefless_link].

(** A feed whose only entry has a category without term. *)
Definition termless_world : World := feed_world [entry_termless].

(** The PDF request succeeds and the document has the given pages. *)
Definition pages_world (pages : result (list (result str))) : World :=
  world (Ok ok_response) {| entries := [] |} (Ok ok_response) pages.

(** Both requests succeed: a feed with the given entries and a document
    with the given page texts. *)
Definition full_world (es : list Entry) (texts : list str) : World :=
  world (Ok ok_response) {| entries := es |} (Ok ok_response)
        (Ok (List.map Ok texts)).

End Cases.

(* ================================================================== *)
(** ** The shape of entries and of the records built from them *)

Module Shape.

Import Arxiv Spec.

Definition present {A} (o : option A) : bool :=
  match o with
  | Some _ => true
  | None => false
  end.

(** A timestamp that is there and that [strptime] accepts. *)
Definition accepted (w : World) (o : option str) : bool :=
  match o with
  | Some s =>
      match strptime w s timestamp_format with
      | Ok _ => true
      | Raise _ => false
      end
  | None => false
  end.

(** The links can be searched for the PDF link: every link up to the first
    one of type [application/pdf] declares a type, and that first PDF link,
    if there is one, has an address.  Links after it do not matter. *)
Fixpoint scan_reads (links : list Link) : bool :=
  match links with
  | [] => true
  | l :: links' =>
      match link_type l with
      | None => false
      | Some ty =>
          if Str.eqb ty pdf_type then present (link_href l)
          else scan_reads links'
      end
  end.

(** The entries a record can be built from: the attributes [id], [title],
    [summary], [published], [updated], [authors], [links] and [tags] can be
    read, both timestamps are accepted, every author has a name, the links
    can be searched and every tag has a [term] attribute, whatever its
    value. *)
Definition readable (w : World) (e : Entry) : bool :=
  present (entry_id e)
  && present (entry_title e)
  && present (entry_summary e)
  && accepted w (entry_published e)
  && accepted w (entry_updated e)
  && match entry_authors e with
     | Some author_list =>
         forallb (fun a => present (author_name a)) author_list
     | None => false
     end
  && match entry_links e with
     | Some links => scan_reads links
     | None => false
     end
  && match entry_tags e with
     | Some tags => forallb (fun t => present (tag_term t)) tags
     | None => false
     end.

(** The entries of the feed format the adapter expects: each carries [id],
    [title], [summary], [published], [updated], a name for every author, an
    address and a type for every link and a term, a string, for every tag;
    both timestamps are in the expected format.  An entry that does not
    conform is malformed. *)
Definition conforms (w : World) (e : Entry) : bool :=
  present (entry_id e)
  && present (entry_title e)
  && present (entry_summary e)
  && accepted w (entry_published e)
  && accepted w (entry_updated e)
  && match entry_authors e with
     | Some author_list =>
         forallb (fun a => present (author_name a)) author_list
     | None => false
     end
  && match entry_links e with
     | Some links =>
         forallb (fun l => present (link_type l) && present (link_href l))
                 links
     | None => false
     end
  && match entry_tags e with
     | Some tags =>
         forallb (fun t => match tag_term t with
                           | Some (Some _) => true
                           | _ => false
                           end) tags
     | None => false
     end.

(** [p] is the record of [e], field by field. *)
Definition describes (w : World) (e : Entry) (p : Paper) : Prop :=
  exists id author_list links tags published updated,
    entry_id e = Some id
    /\ entry_authors e = Some author_list
    /\ entry_links e = Some links
    /\ entry_tags e = Some tags
    /\ entry_published e = Some published
    /\ entry_updated e = Some updated
    /\ is_last_segment id (paper_id p)
    /\ entry_title e = Some (title p)
    /\ List.map author_name author_list = List.map Some (authors p)
    /\ entry_summary e = Some (abstract p)
    /\ url p = id
    /\ ((exists l, first_pdf_link links l /\ link_href l = Some (pdf_url p))
        \/ (no_pdf_link links /\ pdf_url p = lit ""))
    /\ strptime w published timestamp_format = Ok (published_date p)
    /\ strptime w updated timestamp_format = Ok (updated_date p)
    /\ source p = lit "arxiv"
    /\ List.map tag_term tags = List.map Some (categories p)
    /\ keywords p = []
    /\ doi p = match entry_doi e with Some d => d | None => lit "" end.

(** A diagnostic line of the loop of [search]. *)
Definition is_diagnostic (w : World) (ev : event) : Prop :=
  exists ex, ev = Stdout (lit "Error parsing arXiv entry: " ++ exn_str w ex).

End Shape.

(* ================================================================== *)
(** ** Facts about strings *)

Module StrFacts.

Lemma eqb_eq (a b : str) : Str.eqb a b = true <-> a = b.
Proof.
  revert b; induction a as [|x a IH]; intros [|y b]; simpl;
    try (split; [discriminate | congruence]); try tauto.
  rewrite andb_true_iff, N.eqb_eq, IH.
  split; [intros [-> ->]; reflexivity | intros E; injection E; auto].
Qed.

Lemma eqb_neq (a b : str) : Str.eqb a b = false <-> a <> b.
Proof.
  rewrite <- eqb_eq. destruct (Str.eqb a b); split; congruence.
Qed.

Lemma split_not_nil (sep : char) (s : str) : split sep s <> [].
Proof.
  destruct s as [|c s]; simpl; [discriminate|].
  destruct (N.eqb c sep); [discriminate|].
  destruct (split sep s); discriminate.
Qed.

Lemma index_last_defined {A} (l : list A) :
  l <> [] -> exists x, index_last l = Ok x.
Proof.
  induction l as [|x [|y l] IH]; intros H; [congruence|simpl; eauto|].
  apply IH. discriminate.
Qed.

(** [s.split(sep)[-1]] always exists. *)
Lemma index_last_split (sep : char) (s : str) :
  exists seg, index_last (split sep s) = Ok seg.
Proof. apply index_last_defined, split_not_nil. Qed.

Lemma index_last_cons {A} (x y : A) (l : list A) :
  index_last (x :: y :: l) = index_last (y :: l).
Proof. reflexivity. Qed.

(** The last piece holds no separator and is what follows the last
    separator of [s]. *)
Lemma last_piece (sep : char) (s seg : str) :
  index_last (split sep s) = Ok seg ->
  ~ In sep seg /\ (s = seg \/ exists pre, s = pre ++ sep :: seg).
Proof.
  revert seg; induction s as [|c s IH]; intros seg H.
  - simpl in H. injection H as <-. split; [intros []|now left].
  - simpl in H. destruct (N.eqb c sep) eqn:Ec.
    + apply N.eqb_eq in Ec; subst c.
      destruct (split sep s) as [|x l] eqn:E; [now apply split_not_nil in E|].
      rewrite index_last_cons in H.
      destruct (IH _ H) as [Hn [-> | [pre ->]]]; split; auto; right.
      * now exists [].
      * now exists (sep :: pre).
    + apply N.eqb_neq in Ec.
      destruct (split sep s) as [|x l] eqn:E; [now apply split_not_nil in E|].
      destruct l as [|y l].
      * simpl in H. injection H as <-.
        destruct (IH x eq_refl) as [Hn [-> | [pre ->]]].
        -- split; [|now left]. intros [->|]; auto.
        -- split; [intros [->|]; auto|].
           (* [split] produced one piece, so [s] has no separator *)
           exfalso.
           assert (Hs : forall t, List.length (split sep (t ++ sep :: x)) >= 2).
           { clear. induction t as [|d t IHt]; simpl.
             - rewrite N.eqb_refl. simpl.
               pose proof (@split_not_nil sep x).
               destruct (split sep x); simpl; [congruence|lia].
             - destruct (N.eqb d sep); simpl; [lia|].
               destruct (split sep (t ++ sep :: x)) as [|? [|? ?]];
                 simpl in *; lia. }
           specialize (Hs pre). rewrite E in Hs. simpl in Hs. lia.
      * rewrite index_last_cons in H.
        destruct (IH seg) as [Hn [-> | [pre ->]]].
        -- now rewrite index_last_cons.
        -- (* a single piece would leave [l] empty *)
           exfalso. clear - E Hn.
           assert (Hs : forall t, ~ In sep t -> split sep t = [t]).
           { clear. induction t as [|d t IHt]; simpl; intros Hn; auto.
             destruct (N.eqb d sep) eqn:Ed.
             - apply N.eqb_eq in Ed. tauto.
             - rewrite IHt; tauto. }
           rewrite (Hs _ Hn) in E. discriminate.
        -- split; auto. right. now exists (c :: pre).
Qed.

Lemma last_piece_after_sep (sep : char) (pre : str) :
  index_last (split sep (pre ++ [sep])) = Ok [].
Proof.
  induction pre as [|c pre IH]; simpl.
  - now rewrite N.eqb_refl.
  - destruct (split sep (pre ++ [sep])) as [|x l] eqn:E;
      [now apply split_not_nil in E|].
    destruct (N.eqb c sep).
    + now rewrite index_last_cons.
    + destruct l; [|now rewrite index_last_cons in *].
      simpl in IH. injection IH as ->.
      exfalso. clear - E.
      assert (Hs : forall t, List.length (split sep (t ++ [sep])) >= 2).
      { clear. induction t as [|d t IHt]; simpl.
        - rewrite N.eqb_refl. simpl. lia.
        - destruct (N.eqb d sep); simpl; [lia|].
          destruct (split sep (t ++ [sep])) as [|? [|? ?]]; simpl in *; lia. }
      specialize (Hs pre). rewrite E in Hs. simpl in Hs. lia.
Qed.

(** The last piece is empty exactly when [s] is empty or ends with the
    separator. *)
Lemma last_piece_nil (sep : char) (s : str) :
  index_last (split sep s) = Ok [] <->
  s = [] \/ exists pre, s = pre ++ [sep].
Proof.
  split.
  - intros H. apply last_piece in H as [_ [-> | [pre ->]]]; eauto.
  - intros [-> | [pre ->]]; [reflexivity|apply last_piece_after_sep].
Qed.

Lemma lstrip_spec (s : str) :
  exists pre,
    s = pre ++ lstrip s
    /\ Forall (fun c => isspace c = true) pre
    /\ (forall c r, lstrip s = c :: r -> isspace c = false).
Proof.
  induction s as [|c s (pre & E & Hpre & Hhd)]; simpl.
  - exists []. repeat split; auto. discriminate.
  - destruct (isspace c) eqn:Ec.
    + exists (c :: pre). simpl. rewrite <- E. repeat split; auto.
    + exists []. repeat split; auto. intros c' r H.
      injection H as <- _. exact Ec.
Qed.

Lemma rstrip_spec (s : str) :
  exists post,
    s = rstrip s ++ post
    /\ Forall (fun c => isspace c = true) post
    /\ (forall c r, rstrip s = r ++ [c] -> isspace c = false).
Proof.
  unfold rstrip.
  destruct (lstrip_spec (rev s)) as (pre & E & Hpre & Hhd).
  exists (rev pre). repeat split.
  - rewrite <- rev_app_distr, <- E. symmetry. apply rev_involutive.
  - now apply Forall_rev.
  - intros c r H. apply (Hhd c (rev r)).
    rewrite <- (rev_involutive (lstrip (rev s))), H, rev_app_distr.
    reflexivity.
Qed.

(** [strip] removes exactly the whitespace at both ends. *)
Lemma strip_trimmed (s : str) : Spec.trimmed_of s (strip s).
Proof.
  unfold Spec.trimmed_of, strip.
  destruct (lstrip_spec s) as (pre & E1 & Hpre & Hhd).
  destruct (rstrip_spec (lstrip s)) as (post & E2 & Hpost & Hlast).
  exists pre, post. repeat split; auto.
  - rewrite <- E2. exact E1.
  - intros c r H. apply (Hhd c (r ++ post)).
    rewrite E2 at 1. rewrite H. reflexivity.
Qed.

Lemma strip_nil : strip [] = [].
Proof. reflexivity. Qed.

End StrFacts.

(* ================================================================== *)
(** ** Facts about the adapter *)

Module Facts.

Import Arxiv Spec.

(** Steps through the binds of a computation known to succeed. *)
Ltac rbind_inv H :=
  repeat match type of H with
         | rbind ?m _ = Ok _ =>
             let E := fresh "E" in
             destruct m eqn:E; simpl in H; [|discriminate H]
         end.

Lemma getattr_Ok {A} (name : string) (o : option A) (a : A) :
  getattr name o = Ok a -> o = Some a.
Proof. destruct o; simpl; congruence. Qed.

Lemma comprehension_length {A B} (f : A -> result B) xs ys :
  comprehension f xs = Ok ys -> List.length ys = List.length xs.
Proof.
  revert ys; induction xs as [|x xs IH]; simpl; intros ys H.
  - now injection H as <-.
  - rbind_inv H. injection H as <-. simpl. f_equal. now apply IH.
Qed.

(** A comprehension that succeeds maps the list element by element, in
    order. *)
Lemma comprehension_Forall2 {A B} (f : A -> result B) xs ys :
  comprehension f xs = Ok ys -> Forall2 (fun x y => f x = Ok y) xs ys.
Proof.
  revert ys; induction xs as [|x xs IH]; simpl; intros ys H.
  - injection H as <-. constructor.
  - rbind_inv H. injection H as <-. constructor; auto.
Qed.

Lemma comprehension_defined {A B} (f : A -> result B) xs :
  Forall (fun x => exists y, f x = Ok y) xs ->
  exists ys, comprehension f xs = Ok ys.
Proof.
  induction 1 as [|x xs [y Hy] _ [ys IH]]; simpl; [eauto|].
  rewrite Hy. simpl. rewrite IH. simpl. eauto.
Qed.

Lemma getattr_defined {A} (name : string) (o : option A) :
  o <> None -> exists a, getattr name o = Ok a.
Proof. destruct o; [simpl; eauto|congruence]. Qed.

(** The generator expression raises nothing when every link has a type and
    an address. *)
Lemma next_pdf_href_defined (links : list Link) :
  Forall (fun l => link_type l <> None /\ link_href l <> None) links ->
  exists h, next_pdf_href links = Ok h.
Proof.
  induction 1 as [|l links [Ht Hh] _ IH]; simpl; [eauto|].
  destruct (link_type l) as [ty|]; [simpl|congruence].
  destruct (Str.eqb ty (lit "application/pdf")); [|exact IH].
  now apply getattr_defined.
Qed.

(** What the generator expression of [search] yields. *)
Lemma next_pdf_href_spec (links : list Link) (h : str) :
  next_pdf_href links = Ok h ->
  (exists l, first_pdf_link links l /\ link_href l = Some h)
  \/ (no_pdf_link links /\ h = lit "").
Proof.
  revert h; induction links as [|l links IH]; simpl; intros h H.
  - injection H as <-. right. split; [constructor|reflexivity].
  - unfold getattr in H at 1.
    destruct (link_type l) as [ty|] eqn:Et; simpl in H; [|discriminate].
    destruct (Str.eqb ty (lit "application/pdf")) eqn:Ety.
    + apply StrFacts.eqb_eq in Ety; subst ty.
      left. exists l. split.
      * exists [], links. repeat split; auto.
      * destruct (link_href l); simpl in H; congruence.
    + apply StrFacts.eqb_neq in Ety.
      assert (Hl : link_type l <> Some pdf_type)
        by (rewrite Et; unfold pdf_type; congruence).
      destruct (IH _ H) as [(l' & (pre & post & -> & Hpre & Hty) & Hh) | [Hno ->]].
      * left. exists l'. split; auto.
        exists (l :: pre), post. repeat split; auto.
      * right. split; [constructor; auto|reflexivity].
Qed.

Section WithWorld.

Variable w : World.

(** The fields of a record that [parse_entry] builds. *)
Lemma parse_entry_Ok (e : Entry) (p : Paper) :
  parse_entry w e = Ok p ->
  exists id links author_list tags published updated,
    entry_id e = Some id
    /\ index_last (split slash id) = Ok (paper_id p)
    /\ url p = id
    /\ entry_title e = Some (title p)
    /\ entry_summary e = Some (abstract p)
    /\ entry_links e = Some links
    /\ next_pdf_href links = Ok (pdf_url p)
    /\ entry_authors e = Some author_list
    /\ comprehension (fun a => getattr "name" (author_name a)) author_list
       = Ok (authors p)
    /\ entry_tags e = Some tags
    /\ comprehension (fun t => getattr "term" (tag_term t)) tags
       = Ok (categories p)
    /\ entry_published e = Some published
    /\ strptime w published timestamp_format = Ok (published_date p)
    /\ entry_updated e = Some updated
    /\ strptime w updated timestamp_format = Ok (updated_date p)
    /\ source p = lit "arxiv"
    /\ keywords p = []
    /\ doi p = match entry_doi e with Some d => d | None => lit "" end.
Proof.
  unfold parse_entry. intros H. rbind_inv H. injection H as <-. simpl.
  repeat match goal with
         | E : getattr _ _ = Ok _ |- _ => apply getattr_Ok in E
         end.
  do 6 eexists. repeat split; try eassumption; congruence.
Qed.

(** A complete entry is well formed. *)
Lemma complete_well_formed (e : Entry) :
  complete w e -> well_formed w e = true.
Proof.
  intros (id & ti & su & ps & us & al & ls & tg
          & Hid & Hti & Hsu & Hps & Hus & Hal & Hls & Htg
          & Fa & Fl & Ft & [dp Hdp] & [du Hdu]).
  destruct (comprehension_defined
              (fun a => getattr "name" (author_name a)) al) as [names Hn].
  { eapply Forall_impl; [|exact Fa]. intros a. apply getattr_defined. }
  destruct (comprehension_defined
              (fun t => getattr "term" (tag_term t)) tg) as [terms Ht].
  { eapply Forall_impl; [|exact Ft]. intros t. apply getattr_defined. }
  destruct (next_pdf_href_defined ls Fl) as [h Hh].
  destruct (StrFacts.index_last_split slash id) as [seg Hseg].
  unfold well_formed, parse_entry.
  rewrite Hal, Hps, Hus, Hls, Hid, Hti, Hsu, Htg. simpl.
  rewrite Hn. simpl. rewrite Hdp. simpl. rewrite Hdu. simpl.
  rewrite Hh. simpl. rewrite Hseg. simpl. rewrite Ht. reflexivity.
Qed.

(** An entry without a [published] attribute is malformed. *)
Lemma unpublished_malformed (e : Entry) :
  entry_published e = None -> well_formed w e = false.
Proof.
  intros H. unfold well_formed, parse_entry. rewrite H.
  destruct (getattr "authors" (entry_authors e)) as [al|]; simpl; auto.
  destruct (comprehension _ al); reflexivity.
Qed.

(** The loop of [search] appends the records of the well-formed entries
    and prints one line for each of the others. *)
Lemma search_loop (es : list Entry) (acc : list Paper) :
  for_each (search_body w) es acc
  = (Ok (acc ++ parsed w es), diagnostics w es).
Proof.
  revert acc; induction es as [|e es IH]; intros acc; simpl.
  - now rewrite app_nil_r.
  - unfold search_body, lift.
    destruct (parse_entry w e) as [p|ex]; simpl; rewrite IH; simpl.
    + now rewrite <- app_assoc.
    + reflexivity.
Qed.

(** [search] when the request completes, whatever its status. *)
Lemma search_completed (query : str) (k : Z) (resp : Response) :
  requests_get w BASE_URL (search_params query k) = Ok resp ->
  search w query k
  = (Ok (parsed w (response_entries w resp)),
     HttpGet BASE_URL (search_params query k)
     :: diagnostics w (response_entries w resp)).
Proof.
  intros H. unfold search, get, response_entries. simpl. rewrite H. simpl.
  now rewrite search_loop.
Qed.

(** [search] when the transport raises. *)
Lemma search_failed (query : str) (k : Z) (e : exn) :
  requests_get w BASE_URL (search_params query k) = Raise e ->
  search w query k = (Raise e, [HttpGet BASE_URL (search_params query k)]).
Proof.
  intros H. unfold search, get. simpl. now rewrite H.
Qed.

Lemma parsed_length (es : list Entry) :
  List.length (parsed w es) = List.length (filter (well_formed w) es).
Proof.
  induction es as [|e es IH]; simpl; auto. unfold well_formed.
  destruct (parse_entry w e); simpl; auto.
Qed.


Lemma diagnostics_length (es : list Entry) :
  List.length (diagnostics w es)
  = List.length (filter (fun e => negb (well_formed w e)) es).
Proof.
  induction es as [|e es IH]; simpl; auto. unfold well_formed.
  destruct (parse_entry w e); simpl; auto.
Qed.

(** The records are those of the well-formed entries, in feed order. *)
Lemma parsed_Forall2 (es : list Entry) :
  Forall2 (fun e p => parse_entry w e = Ok p)
          (filter (well_formed w) es) (parsed w es).
Proof.
  induction es as [|e es IH]; simpl; [constructor|]. unfold well_formed.
  destruct (parse_entry w e) eqn:E; simpl; auto.
Qed.

Lemma parsed_In (es : list Entry) (p : Paper) :
  In p (parsed w es) -> exists e, In e es /\ parse_entry w e = Ok p.
Proof.
  induction es as [|e es IH]; simpl; [intros []|].
  destruct (parse_entry w e) eqn:E; simpl.
  - intros [<- | H]; [eauto|]. destruct (IH H) as (e' & ? & ?); eauto.
  - intros H. destruct (IH H) as (e' & ? & ?); eauto.
Qed.

Lemma filter_all_well_formed (es : list Entry) :
  Forall (fun e => well_formed w e = true) es ->
  filter (well_formed w) es = es /\ diagnostics w es = [].
Proof.
  induction 1 as [|e es He _ [IH1 IH2]]; simpl; auto.
  rewrite He, IH1. unfold well_formed in He.
  destruct (parse_entry w e); [auto|discriminate].
Qed.

(** The loop of [read_paper] over pages that all extract. *)
Lemma read_loop (texts : list str) (acc : str) :
  for_each read_paper_body (List.map Ok texts) acc
  = (Ok (acc ++ joined texts), []).
Proof.
  revert acc; induction texts as [|t texts IH]; intros acc; simpl.
  - unfold joined. simpl. now rewrite app_nil_r.
  - unfold read_paper_body, lift. simpl. rewrite IH. simpl.
    unfold joined. simpl. destruct t as [|c t]; simpl; auto.
    rewrite <- app_assoc. reflexivity.
Qed.

End WithWorld.

End Facts.

(* ================================================================== *)
(** ** Properties of [search] *)

Module SearchProperties.

Import Arxiv Spec Facts.

(** A transport failure of the search request is raised by [search], with
    no list returned, and passes through [search_arxiv] unchanged. *)
Lemma search_transport_failure_propagates
      (w : World) (query : str) (k : Z) (e : exn) :
  requests_get w BASE_URL (search_params query k) = Raise e ->
  search w query k = (Raise e, [HttpGet BASE_URL (search_params query k)])
  /\ Server.search_arxiv w query k
     = (Raise e, [HttpGet BASE_URL (search_params query k)]).
Proof.
  intros H. pose proof (search_failed w query k e H) as Hs. split; [exact Hs|].
  unfold Server.search_arxiv, Server.async_search_arxiv, call_search.
  simpl. rewrite Hs. reflexivity.
Qed.

(** [search_arxiv] returns the serialized records of [search] and adds no
    event of its own. *)
Lemma search_arxiv_of_search
      (w : World) (query : str) (k : Z) (papers : list Paper) t :
  search w query k = (Ok papers, t) ->
  Server.search_arxiv w query k = (Ok (List.map to_dict papers), t).
Proof.
  intros Hs.
  unfold Server.search_arxiv, Server.async_search_arxiv, call_search.
  simpl. rewrite Hs. simpl. rewrite !app_nil_r.
  destruct papers; reflexivity.
Qed.

(** C1, at a failing input: the search request is answered with status
    500 and an error page.  [raise_for_status] would raise on that
    response, yet [search] returns the empty list and so does
    [search_arxiv]: nothing is raised. *)
Theorem search_error_status_not_raised :
  requests_get (Sample.error_page_world Sample.server_error)
               BASE_URL (search_params (lit "quantum computing") 10)
  = Ok Sample.server_error
  /\ raise_for_status Sample.server_error = Raise (HTTPError 500)
  /\ search (Sample.error_page_world Sample.server_error)
            (lit "quantum computing") 10
     = (Ok [], [HttpGet BASE_URL (search_params (lit "quantum computing") 10)])
  /\ Server.search_arxiv (Sample.error_page_world Sample.server_error)
                         (lit "quantum computing") 10
     = (Ok [], [HttpGet BASE_URL (search_params (lit "quantum computing") 10)]).
Proof. repeat split. Qed.

(** The claim of C4 fails as stated: an entry whose identifier ends in a
    slash is well formed, and its record has an empty [paper_id]. *)
Lemma search_empty_paper_id :
  Forall (fun e => well_formed Sample.slash_world e = true)
         (response_entries Sample.slash_world Sample.ok_response)
  /\ option_map (List.map paper_id)
                (returned (search Sample.slash_world (lit "q") 10))
     = Some [lit ""].
Proof. split; [repeat constructor|reflexivity]. Qed.

(** C4, amended: for a feed whose N entries are all well formed, [search]
    returns N records in feed order; each record's [paper_id] is the last
    path segment of its entry's identifier, and it is empty exactly when
    that identifier is empty or ends in a slash. *)
Theorem search_all_well_formed
        (w : World) (query : str) (k : Z) (resp : Response) :
  requests_get w BASE_URL (search_params query k) = Ok resp ->
  Forall (fun e => well_formed w e = true) (response_entries w resp) ->
  exists papers,
    search w query k
    = (Ok papers, [HttpGet BASE_URL (search_params query k)])
    /\ List.length papers = List.length (response_entries w resp)
    /\ Forall2 (fun e p =>
                  parse_entry w e = Ok p
                  /\ exists id,
                      entry_id e = Some id
                      /\ is_last_segment id (paper_id p)
                      /\ (paper_id p = [] <->
                          id = [] \/ ends_with_slash id))
               (response_entries w resp) papers.
Proof.
  intros H Hwf. exists (parsed w (response_entries w resp)).
  destruct (filter_all_well_formed w _ Hwf) as [Hf Hd].
  pose proof (parsed_Forall2 w (response_entries w resp)) as HF.
  rewrite Hf in HF.
  split; [|split].
  - rewrite (search_completed w query k resp H), Hd. reflexivity.
  - symmetry. exact (Forall2_length HF).
  - clear - HF. induction HF as [|e p es ps Hp _ IH]; constructor; auto.
    split; [exact Hp|].
    destruct (parse_entry_Ok w e p Hp) as (id & ? & ? & ? & ? & ? & Hid & Hseg & _).
    exists id. split; [exact Hid|]. split.
    + exact (StrFacts.last_piece slash id _ Hseg).
    + rewrite <- (StrFacts.last_piece_nil slash id).
      split; [intros E; rewrite <- E; exact Hseg | intros E; congruence].
Qed.

Lemma search_all_well_formed_witness :
  requests_get Sample.two_world BASE_URL (search_params (lit "q") 10)
  = Ok Sample.ok_response
  /\ Forall (fun e => well_formed Sample.two_world e = true)
            [Sample.entry_A; Sample.entry_B]
  /\ exists papers,
    search Sample.two_world (lit "q") 10
    = (Ok papers, [HttpGet BASE_URL (search_params (lit "q") 10)])
    /\ List.length papers = 2
    /\ Forall2 (fun e p =>
                  parse_entry Sample.two_world e = Ok p
                  /\ exists id,
                      entry_id e = Some id
                      /\ is_last_segment id (paper_id p)
                      /\ (paper_id p = [] <->
                          id = [] \/ ends_with_slash id))
               [Sample.entry_A; Sample.entry_B] papers.
Proof.
  split; [reflexivity|]. split; [repeat constructor|].
  refine (search_all_well_formed Sample.two_world (lit "q") 10
                                 Sample.ok_response eq_refl _).
  repeat constructor.
Defined.




(** C7: the [pdf_url] of the record built from a well-formed entry is the
    address of the first link that declares the media type
    [application/pdf], and the empty string when no link declares it. *)
Theorem pdf_url_first_pdf_link (w : World) (e : Entry) (p : Paper) :
  parse_entry w e = Ok p ->
  exists links,
    entry_links e = Some links
    /\ ((exists l, first_pdf_link links l /\ link_href l = Some (pdf_url p))
        \/ (no_pdf_link links /\ pdf_url p = lit "")).
Proof.
  intros H.
  destruct (parse_entry_Ok w e p H)
    as (id & links & ? & ? & ? & ? & _ & _ & _ & _ & _ & Hl & Hn & _).
  exists links. split; [exact Hl|]. now apply next_pdf_href_spec.
Qed.

Lemma pdf_url_first_pdf_link_witness :
  parse_entry Sample.two_world Sample.entry_A = Ok Sample.paper_A
  /\ exists links,
    entry_links Sample.entry_A = Some links
    /\ ((exists l, first_pdf_link links l
                   /\ link_href l = Some (pdf_url Sample.paper_A))
        \/ (no_pdf_link links /\ pdf_url Sample.paper_A = lit "")).
Proof.
  split; [reflexivity|].
  exact (pdf_url_first_pdf_link Sample.two_world Sample.entry_A
                                Sample.paper_A eq_refl).
Defined.

(** An entry that advertises no PDF link parses to a record with an empty
    [pdf_url]. *)
Example pdf_url_absent :
  option_map pdf_url
             (returned (lift (parse_entry Sample.two_world Sample.entry_no_pdf)))
  = Some (lit "").
Proof. reflexivity. Qed.

(** C8: every record that [search] returns has [source] equal to
    ["arxiv"] and no keywords. *)
Theorem search_source_and_keywords
        (w : World) (query : str) (k : Z) (papers : list Paper) t :
  search w query k = (Ok papers, t) ->
  Forall (fun p => source p = lit "arxiv" /\ keywords p = []) papers.
Proof.
  intros H.
  destruct (requests_get w BASE_URL (search_params query k)) as [resp|e] eqn:E.
  - rewrite (search_completed w query k resp E) in H. injection H as <- _.
    apply Forall_forall. intros p Hp.
    destruct (parsed_In _ _ _ Hp) as (e & _ & He).
    destruct (parse_entry_Ok w e p He)
      as (? & ? & ? & ? & ? & ? & Hrest).
    decompose [and] Hrest. auto.
  - rewrite (search_failed w query k e E) in H. discriminate.
Qed.

Lemma search_source_and_keywords_witness :
  search Sample.two_world (lit "quantum computing") 3
  = (Ok [Sample.paper_A; Sample.paper_B],
     [HttpGet BASE_URL (search_params (lit "quantum computing") 3)])
  /\ Forall (fun p => source p = lit "arxiv" /\ keywords p = [])
            [Sample.paper_A; Sample.paper_B].
Proof.
  split; [reflexivity|].
  exact (search_source_and_keywords Sample.two_world
           (lit "quantum computing") 3 _ _ eq_refl).
Defined.

(** C9: when the request completes and its body parses to a feed without
    entries, whatever the status of the response, [search] returns the
    empty list and raises nothing, and [search_arxiv] does the same. *)
Theorem search_unparsable_body_empty
        (w : World) (query : str) (k : Z) (resp : Response) :
  requests_get w BASE_URL (search_params query k) = Ok resp ->
  response_entries w resp = [] ->
  search w query k = (Ok [], [HttpGet BASE_URL (search_params query k)])
  /\ Server.search_arxiv w query k
     = (Ok [], [HttpGet BASE_URL (search_params query k)]).
Proof.
  intros H He.
  assert (Hs : search w query k
               = (Ok [], [HttpGet BASE_URL (search_params query k)])).
  { rewrite (search_completed w query k resp H), He. reflexivity. }
  split; [exact Hs|]. exact (search_arxiv_of_search w query k _ _ Hs).
Qed.

Lemma search_unparsable_body_empty_witness :
  requests_get (Sample.error_page_world Sample.not_found)
               BASE_URL (search_params (lit "q") 10)
  = Ok Sample.not_found
  /\ response_entries (Sample.error_page_world Sample.not_found)
                      Sample.not_found = []
  /\ search (Sample.error_page_world Sample.not_found) (lit "q") 10
     = (Ok [], [HttpGet BASE_URL (search_params (lit "q") 10)])
  /\ Server.search_arxiv (Sample.error_page_world Sample.not_found)
                         (lit "q") 10
     = (Ok [], [HttpGet BASE_URL (search_params (lit "q") 10)]).
Proof.
  split; [reflexivity|]. split; [reflexivity|].
  exact (search_unparsable_body_empty
           (Sample.error_page_world Sample.not_found) (lit "q") 10
           Sample.not_found eq_refl eq_refl).
Defined.

(** A request answered by an error page and a request answered by an
    empty feed give the caller the same value. *)
Corollary search_error_page_like_no_results
          (w1 w2 : World) (query : str) (k : Z) (r1 r2 : Response) :
  requests_get w1 BASE_URL (search_params query k) = Ok r1 ->
  response_entries w1 r1 = [] ->
  requests_get w2 BASE_URL (search_params query k) = Ok r2 ->
  response_entries w2 r2 = [] ->
  search w1 query k = search w2 query k.
Proof.
  intros H1 E1 H2 E2.
  rewrite (search_completed w1 query k r1 H1), (search_completed w2 query k r2 H2).
  now rewrite E1, E2.
Qed.

End SearchProperties.

(* ================================================================== *)
(** ** Properties of [read_paper] *)

Module ReadProperties.

Import Arxiv Spec Facts.

(** [read_paper] returns a string on every path. *)
Lemma read_paper_never_raises (w : World) (paper_id : str) :
  exists text t, read_paper w paper_id = (Ok text, t).
Proof.
  unfold read_paper, try_except.
  match goal with
  | |- context [match ?m with _ => _ end] => destruct m as [[text|e] t]
  end; simpl; eauto.
Qed.

(** The boundary hands on what [read_paper] returns. *)
Lemma read_arxiv_paper_of_read_paper (w : World) (paper_id text : str) t :
  read_paper w paper_id = (Ok text, t) ->
  Server.read_arxiv_paper w paper_id = (Ok text, t).
Proof.
  intros H. unfold Server.read_arxiv_paper, call_read_paper. simpl.
  rewrite H. reflexivity.
Qed.

(** [read_arxiv_paper] returns a string on every path. *)
Lemma read_arxiv_paper_never_raises (w : World) (paper_id : str) :
  exists text t, Server.read_arxiv_paper w paper_id = (Ok text, t).
Proof.
  destruct (read_paper_never_raises w paper_id) as (text & t & H).
  exists text, t. now apply read_arxiv_paper_of_read_paper.
Qed.

(** C2: when the fetch of the PDF fails, by a transport failure or by an
    error status, [read_paper] catches the exception, prints one
    diagnostic line and returns the empty string; [read_arxiv_paper]
    returns the empty string as well. *)
Theorem read_paper_fetch_failure_empty (w : World) (paper_id : str) :
  fetch_fails w paper_id = true ->
  exists e,
    read_paper w paper_id
    = (Ok (lit ""),
       [HttpGet (pdf_address paper_id) [];
        Stdout (lit "Error reading PDF for paper " ++ paper_id
               ++ lit ": " ++ exn_str w e)])
    /\ Server.read_arxiv_paper w paper_id
       = (Ok (lit ""),
          [HttpGet (pdf_address paper_id) [];
           Stdout (lit "Error reading PDF for paper " ++ paper_id
                  ++ lit ": " ++ exn_str w e)]).
Proof.
  unfold fetch_fails. intros H.
  assert (Hr : exists e,
             read_paper w paper_id
             = (Ok (lit ""),
                [HttpGet (pdf_address paper_id) [];
                 Stdout (lit "Error reading PDF for paper " ++ paper_id
                        ++ lit ": " ++ exn_str w e)])).
  { unfold read_paper, get.
    destruct (requests_get w (pdf_address paper_id) []) as [r|e] eqn:E.
    - exists (HTTPError (status_code r)). simpl.
      unfold raise_for_status. rewrite H. reflexivity.
    - exists e. reflexivity. }
  destruct Hr as [e Hr]. exists e. split; [exact Hr|].
  now apply read_arxiv_paper_of_read_paper.
Qed.

Lemma read_paper_fetch_failure_empty_witness :
  fetch_fails (Sample.error_page_world Sample.not_found) (lit "2107.12345")
  = true
  /\ exists e,
    read_paper (Sample.error_page_world Sample.not_found) (lit "2107.12345")
    = (Ok (lit ""),
       [HttpGet (pdf_address (lit "2107.12345")) [];
        Stdout (lit "Error reading PDF for paper " ++ lit "2107.12345"
               ++ lit ": " ++ Sample.render e)])
    /\ Server.read_arxiv_paper (Sample.error_page_world Sample.not_found)
                               (lit "2107.12345")
       = (Ok (lit ""),
          [HttpGet (pdf_address (lit "2107.12345")) [];
           Stdout (lit "Error reading PDF for paper " ++ lit "2107.12345"
                  ++ lit ": " ++ Sample.render e)]).
Proof.
  split; [reflexivity|].
  exact (read_paper_fetch_failure_empty
           (Sample.error_page_world Sample.not_found) (lit "2107.12345")
           eq_refl).
Defined.

(** A transport failure of the PDF request ends the same way. *)
Example read_paper_offline :
  returned (read_paper Sample.offline_world (lit "2107.12345"))
  = Some (lit "")
  /\ returned (Server.read_arxiv_paper Sample.offline_world (lit "2107.12345"))
     = Some (lit "").
Proof. split; reflexivity. Qed.

(** A document that cannot be decoded ends the same way. *)
Lemma read_paper_decode_failure_empty
      (w : World) (paper_id : str) (resp : Response) (e : exn) :
  requests_get w (pdf_address paper_id) [] = Ok resp ->
  raise_for_status resp = Ok tt ->
  PdfReader w (content resp) = Raise e ->
  returned (read_paper w paper_id) = Some (lit "").
Proof.
  intros Hg Hs Hp. unfold read_paper, get. rewrite Hg. simpl.
  rewrite Hs. simpl. rewrite Hp. reflexivity.
Qed.

(** C5: when the fetch succeeds and every page of the document extracts,
    [read_paper] returns the page texts in page order, each non-empty one
    followed by a newline and empty ones left out, trimmed of the
    whitespace at both ends; it prints nothing. *)
Theorem read_paper_success_text
        (w : World) (paper_id : str) (resp : Response) (texts : list str) :
  requests_get w (pdf_address paper_id) [] = Ok resp ->
  raise_for_status resp = Ok tt ->
  PdfReader w (content resp) = Ok (List.map Ok texts) ->
  exists text,
    read_paper w paper_id = (Ok text, [HttpGet (pdf_address paper_id) []])
    /\ trimmed_of (joined texts) text.
Proof.
  intros Hg Hs Hp. exists (strip (joined texts)). split.
  - unfold read_paper, get. rewrite Hg. simpl. rewrite Hs. simpl.
    rewrite Hp. simpl. rewrite read_loop. reflexivity.
  - apply StrFacts.strip_trimmed.
Qed.

Lemma read_paper_success_text_witness :
  requests_get (Sample.pdf_world [lit "  page one "; lit ""; lit "two  "])
               (pdf_address (lit "2107.12345")) []
  = Ok Sample.ok_response
  /\ raise_for_status Sample.ok_response = Ok tt
  /\ PdfReader (Sample.pdf_world [lit "  page one "; lit ""; lit "two  "])
               (content Sample.ok_response)
     = Ok (List.map Ok [lit "  page one "; lit ""; lit "two  "])
  /\ exists text,
    read_paper (Sample.pdf_world [lit "  page one "; lit ""; lit "two  "])
               (lit "2107.12345")
    = (Ok text, [HttpGet (pdf_address (lit "2107.12345")) []])
    /\ trimmed_of (joined [lit "  page one "; lit ""; lit "two  "]) text.
Proof.
  split; [reflexivity|]. split; [reflexivity|]. split; [reflexivity|].
  exact (read_paper_success_text
           (Sample.pdf_world [lit "  page one "; lit ""; lit "two  "])
           (lit "2107.12345") Sample.ok_response
           [lit "  page one "; lit ""; lit "two  "]
           eq_refl eq_refl eq_refl).
Defined.

(** The text read from three pages, the second of them empty. *)
Example read_paper_three_pages :
  returned (read_paper
              (Sample.pdf_world [lit "  page one "; lit ""; lit "two  "])
              (lit "2107.12345"))
  = Some (lit "page one " ++ [newline] ++ lit "two").
Proof. reflexivity. Qed.

End ReadProperties.

(* ================================================================== *)
(** ** Properties of the source interface *)

Module InterfaceProperties.

Import Arxiv.

(** [ArxivSearcher] overrides [search] and [read_paper]. *)
Lemma arxiv_overrides (w : World) :
  call_search ArxivSearcher w = search w
  /\ call_read_paper ArxivSearcher w = read_paper w.
Proof. split; reflexivity. Qed.

(** C10: [ArxivSearcher] defines no [download_pdf]; the call resolves to
    the method of [PaperSource] and raises [NotImplementedError], with no
    request made and nothing printed. *)
Theorem download_pdf_not_implemented (w : World) (paper_id save_path : str) :
  resolve def_download_pdf ArxivSearcher = Some PaperSource_download_pdf
  /\ call_download_pdf ArxivSearcher w paper_id save_path
     = (Raise NotImplementedError, []).
Proof. split; reflexivity. Qed.

End InterfaceProperties.

(* ================================================================== *)
(** ** Further facts about the adapter *)

Module MoreFacts.

Import Arxiv Spec Trace Facts.

Lemma no_edge_space_nil : no_edge_space [].
Proof.
  split; intros c r H; [discriminate|].
  destruct r; discriminate.
Qed.

Lemma strip_no_edge_space (s : str) : no_edge_space (strip s).
Proof.
  destruct (StrFacts.strip_trimmed s) as (pre & post & _ & _ & _ & H1 & H2).
  split; assumption.
Qed.

Lemma lstrip_blank (s : str) : blank s -> lstrip s = [].
Proof.
  induction 1 as [|c s Hc _ IH]; simpl; [reflexivity|].
  now rewrite Hc.
Qed.

Lemma strip_blank (s : str) : blank s -> strip s = [].
Proof.
  intros H. unfold strip. rewrite (lstrip_blank s H). reflexivity.
Qed.

Lemma joined_blank (texts : list str) :
  Forall blank texts -> blank (joined texts).
Proof.
  unfold joined, blank.
  induction 1 as [|t texts Ht _ IH]; simpl; [constructor|].
  destruct t as [|c t]; simpl; [exact IH|].
  rewrite <- app_assoc. inversion Ht; subst.
  constructor; [assumption|].
  apply Forall_app. split; [assumption|].
  constructor; [reflexivity|exact IH].
Qed.

(** The generator expression yields the address of the first PDF link and
    looks no further. *)
Lemma next_pdf_href_first (pre post : list Link) (l : Link) :
  Forall other_type pre ->
  link_type l = Some pdf_type ->
  next_pdf_href (pre ++ l :: post) = getattr "href" (link_href l).
Proof.
  intros Hpre Hl. induction Hpre as [|x pre (ty & Hty & Hne) _ IH]; simpl.
  - rewrite Hl. reflexivity.
  - rewrite Hty. simpl.
    apply StrFacts.eqb_neq in Hne. unfold pdf_type in Hne. rewrite Hne.
    exact IH.
Qed.

Lemma comprehension_map {A B} (f : A -> option B) (name : string) xs ys :
  comprehension (fun x => getattr name (f x)) xs = Ok ys ->
  List.map f xs = List.map Some ys.
Proof.
  intros H. apply comprehension_Forall2 in H.
  induction H as [|x y xs ys Hxy _ IH]; simpl; [reflexivity|].
  apply getattr_Ok in Hxy. now rewrite Hxy, IH.
Qed.

Lemma parsed_app (w : World) (es1 es2 : list Entry) :
  parsed w (es1 ++ es2) = parsed w es1 ++ parsed w es2.
Proof.
  induction es1 as [|e es1 IH]; simpl; [reflexivity|].
  destruct (parse_entry w e); simpl; now rewrite IH.
Qed.

Lemma diagnostics_app (w : World) (es1 es2 : list Entry) :
  diagnostics w (es1 ++ es2) = diagnostics w es1 ++ diagnostics w es2.
Proof.
  induction es1 as [|e es1 IH]; simpl; [reflexivity|].
  destruct (parse_entry w e); simpl; now rewrite IH.
Qed.

Lemma diagnostics_lines (w : World) (es : list Entry) :
  Forall is_line (diagnostics w es).
Proof.
  induction es as [|e es IH]; simpl; [constructor|].
  destruct (parse_entry w e); [exact IH|].
  constructor; [eexists; reflexivity|exact IH].
Qed.

Lemma parsed_malformed (w : World) (es : list Entry) :
  Forall (fun e => well_formed w e = false) es -> parsed w es = [].
Proof.
  induction 1 as [|e es He _ IH]; simpl; [reflexivity|].
  unfold well_formed in He. destruct (parse_entry w e); [discriminate|exact IH].
Qed.

(** Parsing an entry consults the world for [strptime] only. *)
Lemma parse_entry_strptime (w1 w2 : World) (e : Entry) :
  strptime w1 = strptime w2 -> parse_entry w1 e = parse_entry w2 e.
Proof.
  intros H. unfold parse_entry. rewrite H. reflexivity.
Qed.

Lemma parsed_strptime (w1 w2 : World) (es : list Entry) :
  strptime w1 = strptime w2 -> parsed w1 es = parsed w2 es.
Proof.
  intros H. induction es as [|e es IH]; simpl; [reflexivity|].
  now rewrite (parse_entry_strptime w1 w2 e H), IH.
Qed.

Lemma requests_lines (t : list event) : Forall is_line t -> requests t = [].
Proof.
  induction 1 as [|ev t [line ->] _ IH]; simpl; auto.
Qed.

(** The loop of [read_paper] prints nothing and makes no request. *)
Lemma read_loop_silent (pages : list (result str)) (acc : str) :
  snd (for_each read_paper_body pages acc) = [].
Proof.
  revert acc; induction pages as [|page pages IH]; intros acc; simpl; auto.
  destruct page as [text|e]; simpl; [|reflexivity].
  specialize (IH (if truthy text then acc ++ text ++ [newline] else acc)).
  destruct (for_each read_paper_body pages _). simpl in *. now subst.
Qed.

(** The loop of [read_paper] stops at the first page whose extraction
    raises. *)
Lemma read_loop_raise (texts : list str) (e : exn)
      (rest : list (result str)) (acc : str) :
  for_each read_paper_body (List.map Ok texts ++ Raise e :: rest) acc
  = (Raise e, []).
Proof.
  revert acc; induction texts as [|t texts IH]; intros acc; simpl.
  - reflexivity.
  - rewrite IH. reflexivity.
Qed.

(** The shape of every run of [read_paper]: one request, then either the
    stripped text of the document or one diagnostic line and the empty
    string. *)
Lemma read_paper_cases (w : World) (paper_id : str) :
  (exists text,
      read_paper w paper_id
      = (Ok (strip text), [HttpGet (pdf_address paper_id) []]))
  \/ (exists e,
         read_paper w paper_id
         = (Ok (lit ""),
            [HttpGet (pdf_address paper_id) [];
             Stdout (lit "Error reading PDF for paper " ++ paper_id
                     ++ lit ": " ++ exn_str w e)])).
Proof.
  unfold read_paper, get.
  destruct (requests_get w (pdf_address paper_id) []) as [resp|e];
    [|right; exists e; reflexivity].
  simpl. destruct (raise_for_status resp) as [[]|e];
    [|right; exists e; reflexivity].
  simpl. destruct (PdfReader w (content resp)) as [pages|e];
    [|right; exists e; reflexivity].
  simpl. pose proof (read_loop_silent pages (lit "")) as Hs.
  destruct (for_each read_paper_body pages (lit "")) as [[text|e] t];
    simpl in Hs; subst t.
  - left. exists text. reflexivity.
  - right. exists e. reflexivity.
Qed.

End MoreFacts.

(* ================================================================== *)
(** ** What the adapter asks of the remote service *)

Module RequestProperties.

Import Arxiv Spec Trace Facts MoreFacts.

(** X1: every call of [search] makes exactly one request, before anything
    else: a GET of the query endpoint with the query passed on verbatim,
    [max_results] and the two sort parameters.  Everything after it is a
    printed line. *)
Theorem search_one_request (w : World) (query : str) (k : Z) :
  exists lines,
    snd (search w query k)
    = HttpGet (lit "http://export.arxiv.org/api/query")
              [ (lit "search_query", VStr query);
                (lit "max_results", VInt k);
                (lit "sortBy", VStr (lit "submittedDate"));
                (lit "sortOrder", VStr (lit "descending")) ]
      :: lines
    /\ Forall is_line lines.
Proof.
  destruct (requests_get w BASE_URL (search_params query k)) as [resp|e] eqn:E.
  - rewrite (search_completed w query k resp E).
    eexists. split; [reflexivity|]. apply diagnostics_lines.
  - rewrite (search_failed w query k e E).
    eexists. split; [reflexivity|]. constructor.
Qed.

(** X2: every call of [read_paper] makes exactly one request, before
    anything else: a GET of [https://arxiv.org/pdf/<paper_id>.pdf] without
    parameters, the identifier inserted as it is.  At most one line is
    printed after it. *)
Theorem read_paper_one_request (w : World) (paper_id : str) :
  exists lines,
    snd (read_paper w paper_id)
    = HttpGet (lit "https://arxiv.org/pdf/" ++ paper_id ++ lit ".pdf") []
      :: lines
    /\ Forall is_line lines
    /\ List.length lines <= 1.
Proof.
  destruct (read_paper_cases w paper_id) as [[text H] | [e H]]; rewrite H.
  - exists []. repeat split; auto.
  - eexists. split; [reflexivity|]. split; [|simpl; lia].
    constructor; [eexists; reflexivity|constructor].
Qed.

End RequestProperties.

(* ================================================================== *)
(** ** How entries become records *)

Module EntryProperties.

Import Arxiv Spec Trace Facts MoreFacts.

(** X4: the record of a well-formed entry lists the names of the entry's
    authors and the terms of its tags, all of them, in the order of the
    entry. *)
Theorem entry_order_preserved (w : World) (e : Entry) (p : Paper) :
  parse_entry w e = Ok p ->
  exists author_list tags,
    entry_authors e = Some author_list
    /\ List.map author_name author_list = List.map Some (authors p)
    /\ entry_tags e = Some tags
    /\ List.map tag_term tags = List.map Some (categories p).
Proof.
  intros H.
  destruct (parse_entry_Ok w e p H)
    as (id & links & al & tg & ps & us & _ & _ & _ & _ & _ & _ & _
        & Hal & Hn & Htg & Ht & _).
  exists al, tg. repeat split; auto.
  - exact (comprehension_map author_name "name" al (authors p) Hn).
  - exact (comprehension_map tag_term "term" tg (categories p) Ht).
Qed.

Lemma entry_order_preserved_witness :
  parse_entry Sample.two_world Sample.entry_A = Ok Sample.paper_A
  /\ exists author_list tags,
    entry_authors Sample.entry_A = Some author_list
    /\ List.map author_name author_list
       = List.map Some (authors Sample.paper_A)
    /\ entry_tags Sample.entry_A = Some tags
    /\ List.map tag_term tags = List.map Some (categories Sample.paper_A).
Proof.
  split; [reflexivity|].
  exact (entry_order_preserved Sample.two_world Sample.entry_A
                               Sample.paper_A eq_refl).
Defined.

(** X5: the record of a well-formed entry copies the entry's title, summary
    and identifier into [title], [abstract] and [url]; its [doi] is the
    entry's, or the empty string when the entry has none; and its [url]
    ends with its [paper_id]. *)
Theorem entry_fields_copied (w : World) (e : Entry) (p : Paper) :
  parse_entry w e = Ok p ->
  entry_title e = Some (title p)
  /\ entry_summary e = Some (abstract p)
  /\ entry_id e = Some (url p)
  /\ doi p = match entry_doi e with Some d => d | None => lit "" end
  /\ exists pre, url p = pre ++ paper_id p.
Proof.
  intros H.
  destruct (parse_entry_Ok w e p H)
    as (id & links & al & tg & ps & us & Hid & Hseg & Hurl & Hti & Hsu & Hrest).
  decompose [and] Hrest. subst id. repeat split; auto.
  destruct (StrFacts.last_piece slash (url p) (paper_id p) Hseg)
    as [_ [E | [pre E]]].
  - exists []. exact E.
  - exists (pre ++ [slash]). rewrite <- app_assoc. exact E.
Qed.

Lemma entry_fields_copied_witness :
  parse_entry Sample.two_world Sample.entry_no_pdf
  = Ok {| paper_id := lit "2107.00001v2";
          title := lit "B";
          authors := [lit "A. Author"; lit "B. Author"];
          abstract := lit "An abstract.";
          url := lit "http://arxiv.org/abs/2107.00001v2";
          pdf_url := lit "";
          published_date := published_date Sample.paper_B;
          updated_date := updated_date Sample.paper_B;
          source := lit "arxiv";
          categories := [Some (lit "cs.LG")];
          keywords := [];
          doi := lit "10.1000/xyz" |}
  /\ entry_title Sample.entry_no_pdf = Some (lit "B")
  /\ entry_summary Sample.entry_no_pdf = Some (lit "An abstract.")
  /\ entry_id Sample.entry_no_pdf
     = Some (lit "http://arxiv.org/abs/2107.00001v2")
  /\ lit "10.1000/xyz"
     = match entry_doi Sample.entry_no_pdf with
       | Some d => d
       | None => lit ""
       end
  /\ exists pre,
      lit "http://arxiv.org/abs/2107.00001v2" = pre ++ lit "2107.00001v2".
Proof.
  split; [reflexivity|].
  exact (entry_fields_copied Sample.two_world Sample.entry_no_pdf _ eq_refl).
Defined.

(** X6: an entry on which reading [id], [title], [summary], [published],
    [authors], [links] or [tags] raises for want of the attribute is
    malformed, whatever else it carries. *)
Theorem entry_missing_attribute_dropped (w : World) (e : Entry) :
  entry_id e = None \/ entry_title e = None \/ entry_summary e = None
  \/ entry_published e = None
  \/ entry_authors e = None \/ entry_links e = None \/ entry_tags e = None ->
  well_formed w e = false.
Proof.
  intros H. unfold well_formed.
  destruct (parse_entry w e) as [p|] eqn:E; [exfalso|reflexivity].
  destruct (parse_entry_Ok w e p E)
    as (id & links & al & tg & ps & us & Hid & _ & _ & Hti & Hsu & Hl & _
        & Hal & _ & Htg & _ & Hps & _).
  intuition congruence.
Qed.

Lemma entry_missing_attribute_dropped_witness :
  (entry_id Sample.entry_unpublished = None
   \/ entry_title Sample.entry_unpublished = None
   \/ entry_summary Sample.entry_unpublished = None
   \/ entry_published Sample.entry_unpublished = None
   \/ entry_authors Sample.entry_unpublished = None
   \/ entry_links Sample.entry_unpublished = None
   \/ entry_tags Sample.entry_unpublished = None)
  /\ well_formed Sample.two_world Sample.entry_unpublished = false.
Proof.
  split; [do 3 right; left; reflexivity|].
  apply (entry_missing_attribute_dropped Sample.two_world
                                         Sample.entry_unpublished).
  do 3 right. left. reflexivity.
Defined.

(** X7: an entry that carries the eight attributes [search] reads, a name
    for each author, a type and an address for each link, a term for each
    tag and two timestamps that [strptime] accepts is well formed; it needs
    no [doi] and no PDF link. *)
Theorem entry_complete_kept (w : World) (e : Entry) :
  complete w e -> exists p, parse_entry w e = Ok p.
Proof.
  intros H. apply complete_well_formed in H. unfold well_formed in H.
  destruct (parse_entry w e) as [p|]; [eauto|discriminate].
Qed.

Lemma entry_complete_kept_witness :
  complete Sample.two_world Sample.entry_no_pdf
  /\ exists p, parse_entry Sample.two_world Sample.entry_no_pdf = Ok p.
Proof.
  assert (H : complete Sample.two_world Sample.entry_no_pdf).
  { unfold complete. do 8 eexists.
    repeat (split; [reflexivity|]).
    split; [repeat constructor; discriminate|].
    split; [repeat constructor; discriminate|].
    split; [repeat constructor; discriminate|].
    split; eexists; reflexivity. }
  split; [exact H|].
  exact (entry_complete_kept Sample.two_world Sample.entry_no_pdf H).
Defined.

(** X8: an entry whose [published] or [updated] timestamp [strptime]
    rejects is malformed. *)
Theorem entry_bad_timestamp_dropped
        (w : World) (e : Entry) (s : str) (ex : exn) :
  strptime w s timestamp_format = Raise ex ->
  entry_published e = Some s \/ entry_updated e = Some s ->
  well_formed w e = false.
Proof.
  intros Hs H. unfold well_formed.
  destruct (parse_entry w e) as [p|] eqn:E; [exfalso|reflexivity].
  destruct (parse_entry_Ok w e p E)
    as (id & links & al & tg & ps & us & _ & _ & _ & _ & _ & _ & _
        & _ & _ & _ & _ & Hps & Hdp & Hus & Hdu & _).
  destruct H as [H|H]; congruence.
Qed.

Lemma entry_bad_timestamp_dropped_witness :
  strptime Sample.two_world (lit "26 Jul 2021") timestamp_format
  = Raise (ValueError (lit "time data does not match format"))
  /\ (entry_published Cases.entry_bad_date = Some (lit "26 Jul 2021")
      \/ entry_updated Cases.entry_bad_date = Some (lit "26 Jul 2021"))
  /\ well_formed Sample.two_world Cases.entry_bad_date = false.
Proof.
  split; [reflexivity|]. split; [left; reflexivity|].
  apply (entry_bad_timestamp_dropped
           Sample.two_world Cases.entry_bad_date (lit "26 Jul 2021")
           (ValueError (lit "time data does not match format")) eq_refl).
  left. reflexivity.
Defined.

(** X10: the generator expression of [search] is decided by the first PDF
    link: it yields that link's address, or raises when that link has none,
    and never looks at the links after it. *)
Theorem first_pdf_link_decides (pre post : list Link) (l : Link) :
  Forall other_type pre ->
  link_type l = Some pdf_type ->
  next_pdf_href (pre ++ l :: post)
  = match link_href l with
    | Some h => Ok h
    | None => Raise (AttributeError "href")
    end.
Proof.
  intros Hpre Hl. rewrite (next_pdf_href_first pre post l Hpre Hl).
  reflexivity.
Qed.

Lemma first_pdf_link_decides_witness :
  Forall other_type [Cases.html_link]
  /\ link_type Cases.pdf_link = Some pdf_type
  /\ next_pdf_href ([Cases.html_link] ++ Cases.pdf_link :: [Cases.hrefless_link])
     = match link_href Cases.pdf_link with
       | Some h => Ok h
       | None => Raise (AttributeError "href")
       end.
Proof.
  assert (H : Forall other_type [Cases.html_link]).
  { repeat constructor. eexists. split; [reflexivity|discriminate]. }
  split; [exact H|]. split; [reflexivity|].
  exact (first_pdf_link_decides [Cases.html_link] [Cases.hrefless_link]
                                Cases.pdf_link H eq_refl).
Defined.

(** X11: entries are handled one by one.  When three worlds read
    timestamps alike and the feed of the first is the feed of the second
    followed by the feed of the third, [search] returns in the first the
    records it returns in the second followed by those it returns in the
    third. *)
Theorem search_concatenated_feeds
        (w w1 w2 : World) (query : str) (k : Z) (r r1 r2 : Response) :
  strptime w1 = strptime w ->
  strptime w2 = strptime w ->
  requests_get w BASE_URL (search_params query k) = Ok r ->
  requests_get w1 BASE_URL (search_params query k) = Ok r1 ->
  requests_get w2 BASE_URL (search_params query k) = Ok r2 ->
  response_entries w r = response_entries w1 r1 ++ response_entries w2 r2 ->
  exists ps1 ps2,
    returned (search w1 query k) = Some ps1
    /\ returned (search w2 query k) = Some ps2
    /\ returned (search w query k) = Some (ps1 ++ ps2).
Proof.
  intros S1 S2 H H1 H2 E.
  rewrite (search_completed w query k r H),
          (search_completed w1 query k r1 H1),
          (search_completed w2 query k r2 H2).
  do 2 eexists. split; [reflexivity|]. split; [reflexivity|].
  unfold returned. simpl. rewrite E, parsed_app.
  now rewrite (parsed_strptime w1 w _ S1), (parsed_strptime w2 w _ S2).
Qed.

Lemma search_concatenated_feeds_witness :
  strptime (Sample.feed_world [Sample.entry_A; Sample.entry_unpublished])
  = strptime Sample.mixed_world
  /\ strptime (Sample.feed_world [Sample.entry_B])
     = strptime Sample.mixed_world
  /\ exists ps1 ps2,
    returned (search (Sample.feed_world
                        [Sample.entry_A; Sample.entry_unpublished])
                     (lit "q") 10) = Some ps1
    /\ returned (search (Sample.feed_world [Sample.entry_B]) (lit "q") 10)
       = Some ps2
    /\ returned (search Sample.mixed_world (lit "q") 10) = Some (ps1 ++ ps2).
Proof.
  split; [reflexivity|]. split; [reflexivity|].
  exact (search_concatenated_feeds
           Sample.mixed_world
           (Sample.feed_world [Sample.entry_A; Sample.entry_unpublished])
           (Sample.feed_world [Sample.entry_B])
           (lit "q") 10 Sample.ok_response Sample.ok_response
           Sample.ok_response
           eq_refl eq_refl eq_refl eq_refl eq_refl eq_refl).
Defined.

End EntryProperties.

(* ================================================================== *)
(** ** What [read_paper] makes of a document *)

Module PageProperties.

Import Arxiv Spec Trace Facts MoreFacts.

(** X12: when the extraction of one page raises, [read_paper] returns the
    empty string and prints one diagnostic line; the text extracted from
    the pages before it is discarded. *)
Theorem read_paper_page_failure_empty
        (w : World) (paper_id : str) (resp : Response)
        (texts : list str) (e : exn) (rest : list (result str)) :
  requests_get w (pdf_address paper_id) [] = Ok resp ->
  raise_for_status resp = Ok tt ->
  PdfReader w (content resp) = Ok (List.map Ok texts ++ Raise e :: rest) ->
  read_paper w paper_id
  = (Ok (lit ""),
     [HttpGet (pdf_address paper_id) [];
      Stdout (lit "Error reading PDF for paper " ++ paper_id
              ++ lit ": " ++ exn_str w e)]).
Proof.
  intros Hg Hs Hp. unfold read_paper, get. rewrite Hg. simpl.
  rewrite Hs. simpl. rewrite Hp. simpl. rewrite read_loop_raise.
  reflexivity.
Qed.

Lemma read_paper_page_failure_empty_witness :
  requests_get
    (Cases.pages_world (Ok [Ok (lit "page one"); Raise PdfReadError;
                            Ok (lit "page three")]))
    (pdf_address (lit "2107.12345")) []
  = Ok Sample.ok_response
  /\ raise_for_status Sample.ok_response = Ok tt
  /\ read_paper
       (Cases.pages_world (Ok [Ok (lit "page one"); Raise PdfReadError;
                               Ok (lit "page three")]))
       (lit "2107.12345")
     = (Ok (lit ""),
        [HttpGet (pdf_address (lit "2107.12345")) [];
         Stdout (lit "Error reading PDF for paper " ++ lit "2107.12345"
                 ++ lit ": " ++ Sample.render PdfReadError)]).
Proof.
  split; [reflexivity|]. split; [reflexivity|].
  exact (read_paper_page_failure_empty
           (Cases.pages_world (Ok [Ok (lit "page one"); Raise PdfReadError;
                                   Ok (lit "page three")]))
           (lit "2107.12345") Sample.ok_response
           [lit "page one"] PdfReadError [Ok (lit "page three")]
           eq_refl eq_refl eq_refl).
Defined.

(** X13: when the fetched bytes cannot be opened as a PDF document,
    [read_paper] returns the empty string and prints one diagnostic
    line. *)
Theorem read_paper_undecodable_empty
        (w : World) (paper_id : str) (resp : Response) (e : exn) :
  requests_get w (pdf_address paper_id) [] = Ok resp ->
  raise_for_status resp = Ok tt ->
  PdfReader w (content resp) = Raise e ->
  read_paper w paper_id
  = (Ok (lit ""),
     [HttpGet (pdf_address paper_id) [];
      Stdout (lit "Error reading PDF for paper " ++ paper_id
              ++ lit ": " ++ exn_str w e)]).
Proof.
  intros Hg Hs Hp. unfold read_paper, get. rewrite Hg. simpl.
  rewrite Hs. simpl. rewrite Hp. reflexivity.
Qed.

Lemma read_paper_undecodable_empty_witness :
  requests_get (Cases.pages_world (Raise PdfReadError))
               (pdf_address (lit "2107.12345")) []
  = Ok Sample.ok_response
  /\ raise_for_status Sample.ok_response = Ok tt
  /\ PdfReader (Cases.pages_world (Raise PdfReadError))
               (content Sample.ok_response)
     = Raise PdfReadError
  /\ read_paper (Cases.pages_world (Raise PdfReadError)) (lit "2107.12345")
     = (Ok (lit ""),
        [HttpGet (pdf_address (lit "2107.12345")) [];
         Stdout (lit "Error reading PDF for paper " ++ lit "2107.12345"
                 ++ lit ": " ++ Sample.render PdfReadError)]).
Proof.
  split; [reflexivity|]. split; [reflexivity|]. split; [reflexivity|].
  exact (read_paper_undecodable_empty
           (Cases.pages_world (Raise PdfReadError)) (lit "2107.12345")
           Sample.ok_response PdfReadError eq_refl eq_refl eq_refl).
Defined.

(** X14: [read_paper] returns a string in every world and for every
    identifier, and that string neither begins nor ends with whitespace. *)
Theorem read_paper_no_edge_space (w : World) (paper_id : str) :
  exists text t,
    read_paper w paper_id = (Ok text, t) /\ no_edge_space text.
Proof.
  destruct (read_paper_cases w paper_id) as [[text H] | [e H]]; rewrite H.
  - do 2 eexists. split; [reflexivity|]. apply strip_no_edge_space.
  - do 2 eexists. split; [reflexivity|]. apply no_edge_space_nil.
Qed.

(** X15: a document whose pages hold nothing but whitespace reads as the
    empty string, the value a failed fetch gives, and no line is
    printed. *)
Theorem read_paper_blank_document_empty
        (w : World) (paper_id : str) (resp : Response) (texts : list str) :
  requests_get w (pdf_address paper_id) [] = Ok resp ->
  raise_for_status resp = Ok tt ->
  PdfReader w (content resp) = Ok (List.map Ok texts) ->
  Forall blank texts ->
  read_paper w paper_id = (Ok (lit ""), [HttpGet (pdf_address paper_id) []]).
Proof.
  intros Hg Hs Hp Hb. unfold read_paper, get. rewrite Hg. simpl.
  rewrite Hs. simpl. rewrite Hp. simpl. rewrite read_loop. simpl.
  rewrite (strip_blank (joined texts) (joined_blank texts Hb)).
  reflexivity.
Qed.

Lemma read_paper_blank_document_empty_witness :
  requests_get (Sample.pdf_world [lit "   "; lit ""; [newline; newline]])
               (pdf_address (lit "2107.12345")) []
  = Ok Sample.ok_response
  /\ raise_for_status Sample.ok_response = Ok tt
  /\ Forall blank [lit "   "; lit ""; [newline; newline]]
  /\ read_paper (Sample.pdf_world [lit "   "; lit ""; [newline; newline]])
                (lit "2107.12345")
     = (Ok (lit ""), [HttpGet (pdf_address (lit "2107.12345")) []]).
Proof.
  assert (H : Forall blank [lit "   "; lit ""; [newline; newline]])
    by (repeat constructor).
  split; [reflexivity|]. split; [reflexivity|]. split; [exact H|].
  exact (read_paper_blank_document_empty
           (Sample.pdf_world [lit "   "; lit ""; [newline; newline]])
           (lit "2107.12345") Sample.ok_response
           [lit "   "; lit ""; [newline; newline]]
           eq_refl eq_refl eq_refl H).
Defined.

End PageProperties.

(* ================================================================== *)
(** ** What the tool-call boundary adds *)

Module BoundaryProperties.

Import Arxiv Spec Trace Facts MoreFacts.

(** X16: [read_arxiv_paper] behaves exactly as [read_paper]: same value,
    same request, same printed lines.  Its own [except] branch is never
    taken, so its diagnostic line is never printed. *)
Theorem read_arxiv_paper_is_read_paper (w : World) (paper_id : str) :
  Server.read_arxiv_paper w paper_id = read_paper w paper_id.
Proof.
  destruct (ReadProperties.read_paper_never_raises w paper_id)
    as (text & t & H).
  rewrite (ReadProperties.read_arxiv_paper_of_read_paper w paper_id text t H).
  symmetry. exact H.
Qed.

(** X17: [search_arxiv] adds nothing to [search]: it returns the records
    of [search] serialized one by one in the same order, raises what
    [search] raises, and makes the same request and prints the same
    lines. *)
Theorem search_arxiv_mirrors_search (w : World) (query : str) (k : Z) :
  Server.search_arxiv w query k
  = (outcome (List.map to_dict) (search w query k), snd (search w query k)).
Proof.
  destruct (search w query k) as [[papers|e] t] eqn:H.
  - rewrite (SearchProperties.search_arxiv_of_search w query k papers t H).
    reflexivity.
  - unfold Server.search_arxiv, Server.async_search_arxiv, call_search.
    simpl. rewrite H. reflexivity.
Qed.

End BoundaryProperties.

(* ================================================================== *)
(** ** The script run as [__main__] *)

Module ScriptProperties.

Import Arxiv Spec Trace Facts MoreFacts Script.

(** The listing loop prints one line for each record. *)
Lemma listing_loop (papers : list Paper) (i : nat) :
  exists lines,
    for_each listing_body papers i = (Ok (i + List.length papers), lines)
    /\ Forall is_line lines
    /\ List.length lines = List.length papers.
Proof.
  revert i; induction papers as [|p papers IH]; intros i.
  - exists []. simpl. rewrite Nat.add_0_r. repeat split; constructor.
  - destruct (IH (S i)) as (lines & H & Hl & Hn).
    cbn [for_each]. unfold listing_body at 1.
    unfold bind at 1 2, print, ret. rewrite H.
    eexists. split; [|split].
    + cbn [app List.length]. rewrite <- plus_n_Sm. reflexivity.
    + constructor; [eexists; reflexivity|exact Hl].
    + simpl. now rewrite Hn.
Qed.

Lemma search_test_completed
      (w : World) (query : str) (k : Z) (resp : Response) :
  requests_get w BASE_URL (search_params query k) = Ok resp ->
  exists lines,
    search_test w ArxivSearcher query k
    = (Ok (Some (parsed w (response_entries w resp))),
       HttpGet BASE_URL (search_params query k) :: lines)
    /\ Forall is_line lines.
Proof.
  intros H. unfold search_test.
  change (call_search ArxivSearcher w query k) with (search w query k).
  rewrite (search_completed w query k resp H).
  destruct (listing_loop (parsed w (response_entries w resp)) 1)
    as (lines & Hl & Hlines & _).
  unfold bind at 1. unfold bind at 1. rewrite Hl.
  unfold print, ret, try_except.
  eexists. split; [reflexivity|].
  apply Forall_app. split; [apply diagnostics_lines|].
  constructor; [eexists; reflexivity|].
  rewrite app_nil_r. exact Hlines.
Qed.

Lemma search_test_failed (w : World) (query : str) (k : Z) (e : exn) :
  requests_get w BASE_URL (search_params query k) = Raise e ->
  search_test w ArxivSearcher query k
  = (Ok None,
     [HttpGet BASE_URL (search_params query k);
      Stdout (lit "Error during search: " ++ exn_str w e)]).
Proof.
  intros H. unfold search_test.
  change (call_search ArxivSearcher w query k) with (search w query k).
  rewrite (search_failed w query k e H). reflexivity.
Qed.

Lemma read_test_nonempty (w : World) (p : Paper) (papers : list Paper) :
  exists lines,
    read_test w ArxivSearcher (p :: papers)
    = (Ok tt,
       Stdout ([newline] ++ lit "Testing in-memory PDF reading...")
       :: HttpGet (pdf_address (paper_id p)) [] :: lines)
    /\ Forall is_line lines.
Proof.
  unfold read_test.
  change (call_read_paper ArxivSearcher w (paper_id p))
    with (read_paper w (paper_id p)).
  destruct (read_paper_cases w (paper_id p)) as [[text H] | [e H]];
    rewrite H; unfold bind, print, ret, try_except;
    (eexists; split; [reflexivity|]);
    repeat (constructor; [eexists; reflexivity|]); constructor.
Qed.

(** X18: when the search request of the script fails in transport, the
    script prints the error, and then stops with a [NameError] at
    [if papers:], the name [papers] never having been bound.  It makes no
    second request. *)
Theorem main_search_failure_name_error (w : World) (e : exn) :
  requests_get w BASE_URL (search_params (lit "machine learning") 5)
  = Raise e ->
  main w
  = (Raise (NameError "papers"),
     [Stdout (lit "Testing search functionality...");
      HttpGet BASE_URL (search_params (lit "machine learning") 5);
      Stdout (lit "Error during search: " ++ exn_str w e)]).
Proof.
  intros H. unfold main.
  rewrite (search_test_failed w (lit "machine learning") 5 e H).
  reflexivity.
Qed.

Lemma main_search_failure_name_error_witness :
  requests_get Sample.offline_world BASE_URL
               (search_params (lit "machine learning") 5)
  = Raise ConnectionError
  /\ main Sample.offline_world
     = (Raise (NameError "papers"),
        [Stdout (lit "Testing search functionality...");
         HttpGet BASE_URL (search_params (lit "machine learning") 5);
         Stdout (lit "Error during search: "
                 ++ Sample.render ConnectionError)]).
Proof.
  split; [reflexivity|].
  exact (main_search_failure_name_error Sample.offline_world
                                        ConnectionError eq_refl).
Defined.

(** X19: when the search request of the script completes and no entry of
    the feed is well formed, the script ends normally after that one
    request: it fetches no document. *)
Theorem main_no_records (w : World) (resp : Response) :
  requests_get w BASE_URL (search_params (lit "machine learning") 5)
  = Ok resp ->
  Forall (fun e => well_formed w e = false) (response_entries w resp) ->
  exists lines,
    main w
    = (Ok tt,
       Stdout (lit "Testing search functionality...")
       :: HttpGet BASE_URL (search_params (lit "machine learning") 5)
       :: lines)
    /\ Forall is_line lines.
Proof.
  intros H Hbad. unfold main.
  destruct (search_test_completed w (lit "machine learning") 5 resp H)
    as (lines & Hs & Hl).
  rewrite Hs, (parsed_malformed w _ Hbad).
  unfold bind, print, ret, read_test.
  exists (lines ++ []). split; [reflexivity|].
  rewrite app_nil_r. exact Hl.
Qed.

Lemma main_no_records_witness :
  requests_get (Cases.full_world [Sample.entry_unpublished] [])
               BASE_URL (search_params (lit "machine learning") 5)
  = Ok Sample.ok_response
  /\ Forall (fun e =>
               well_formed (Cases.full_world [Sample.entry_unpublished] []) e
               = false)
            [Sample.entry_unpublished]
  /\ exists lines,
    main (Cases.full_world [Sample.entry_unpublished] [])
    = (Ok tt,
       Stdout (lit "Testing search functionality...")
       :: HttpGet BASE_URL (search_params (lit "machine learning") 5)
       :: lines)
    /\ Forall is_line lines.
Proof.
  assert (H : Forall (fun e =>
                        well_formed
                          (Cases.full_world [Sample.entry_unpublished] []) e
                        = false)
                     [Sample.entry_unpublished])
    by (repeat constructor).
  split; [reflexivity|]. split; [exact H|].
  exact (main_no_records (Cases.full_world [Sample.entry_unpublished] [])
                         Sample.ok_response eq_refl H).
Defined.

(** X20: when the search request of the script completes and the feed has
    a well-formed entry, the script ends normally after exactly two
    requests: the search, and the fetch of the document named by the first
    well-formed entry. *)
Theorem main_reads_first_record
        (w : World) (resp : Response) (bad rest : list Entry)
        (e : Entry) (p : Paper) :
  requests_get w BASE_URL (search_params (lit "machine learning") 5)
  = Ok resp ->
  response_entries w resp = bad ++ e :: rest ->
  Forall (fun e' => well_formed w e' = false) bad ->
  parse_entry w e = Ok p ->
  exists t,
    main w = (Ok tt, t)
    /\ requests t
       = [HttpGet BASE_URL (search_params (lit "machine learning") 5);
          HttpGet (pdf_address (paper_id p)) []].
Proof.
  intros H He Hbad Hp. unfold main.
  destruct (search_test_completed w (lit "machine learning") 5 resp H)
    as (lines & Hs & Hl).
  rewrite Hs, He, parsed_app, (parsed_malformed w bad Hbad).
  cbn [parsed app]. rewrite Hp.
  destruct (read_test_nonempty w p (parsed w rest)) as (lines' & Hr & Hl').
  unfold bind at 1. unfold print. unfold bind at 1. rewrite Hr.
  eexists. split; [reflexivity|].
  unfold requests. cbn [app filter is_request].
  rewrite filter_app. cbn [filter is_request].
  fold (requests lines). fold (requests lines').
  now rewrite (requests_lines lines Hl), (requests_lines lines' Hl').
Qed.

Lemma main_reads_first_record_witness :
  requests_get (Cases.full_world Sample.mixed_entries [lit "hello"])
               BASE_URL (search_params (lit "machine learning") 5)
  = Ok Sample.ok_response
  /\ parse_entry (Cases.full_world Sample.mixed_entries [lit "hello"])
                 Sample.entry_A
     = Ok Sample.paper_A
  /\ exists t,
    main (Cases.full_world Sample.mixed_entries [lit "hello"]) = (Ok tt, t)
    /\ requests t
       = [HttpGet BASE_URL (search_params (lit "machine learning") 5);
          HttpGet (pdf_address (paper_id Sample.paper_A)) []].
Proof.
  split; [reflexivity|]. split; [reflexivity|].
  exact (main_reads_first_record
           (Cases.full_world Sample.mixed_entries [lit "hello"])
           Sample.ok_response [] [Sample.entry_unpublished; Sample.entry_B]
           Sample.entry_A Sample.paper_A
           eq_refl eq_refl (Forall_nil _) eq_refl).
Defined.

End ScriptProperties.

(* ================================================================== *)
(** ** Which entries [search] drops and what it builds from the others *)

Module DropProperties.

Import Arxiv Spec Trace Shape Facts MoreFacts.

Lemma comprehension_present {A B} (f : A -> option B) (name : string) xs :
  forallb (fun x => present (f x)) xs = true <->
  exists ys, comprehension (fun x => getattr name (f x)) xs = Ok ys.
Proof.
  induction xs as [|x xs IH]; simpl.
  - split; eauto.
  - rewrite andb_true_iff, IH. destruct (f x) as [y|]; simpl.
    + split.
      * intros [_ [ys ->]]. simpl. eauto.
      * intros [ys H]. split; [reflexivity|].
        destruct (comprehension _ xs) as [zs|]; [eauto|discriminate].
    + split; [intros [H _]|intros [ys H]]; discriminate.
Qed.

Lemma scan_reads_defined (links : list Link) :
  scan_reads links = true <-> exists h, next_pdf_href links = Ok h.
Proof.
  induction links as [|l links IH]; simpl.
  - split; eauto.
  - destruct (link_type l) as [ty|]; simpl.
    + change (lit "application/pdf") with pdf_type.
      destruct (Str.eqb ty pdf_type); [|exact IH].
      destruct (link_href l); simpl; split; eauto; try discriminate.
      intros [h H]. discriminate.
    + split; [discriminate|intros [h H]; discriminate].
Qed.

Lemma accepted_defined (w : World) (o : option str) :
  accepted w o = true <->
  exists s d, o = Some s /\ strptime w s timestamp_format = Ok d.
Proof.
  unfold accepted. destruct o as [s|].
  - destruct (strptime w s timestamp_format) as [d|] eqn:E; split; eauto.
    + discriminate.
    + intros (s' & d & Hs & Hd). congruence.
  - split; [discriminate|intros (s & d & H & _); discriminate].
Qed.

Lemma present_defined {A} (o : option A) :
  present o = true <-> exists a, o = Some a.
Proof.
  destruct o; simpl; split; eauto; try discriminate.
  intros [a H]. discriminate.
Qed.

(** Building the record of a readable entry raises nothing. *)
Lemma readable_parses (w : World) (e : Entry) :
  readable w e = true -> exists p, parse_entry w e = Ok p.
Proof.
  unfold readable. rewrite !andb_true_iff.
  intros [[[[[[[Hid Hti] Hsu] Hps] Hus] Hal] Hls] Htg].
  apply present_defined in Hid as [id Hid].
  apply present_defined in Hti as [ti Hti].
  apply present_defined in Hsu as [su Hsu].
  apply accepted_defined in Hps as (ps & dp & Hps & Hdp).
  apply accepted_defined in Hus as (us & du & Hus & Hdu).
  destruct (entry_authors e) as [al|] eqn:Eal; [|discriminate].
  destruct (entry_links e) as [ls|] eqn:Els; [|discriminate].
  destruct (entry_tags e) as [tg|] eqn:Etg; [|discriminate].
  apply (comprehension_present author_name "name") in Hal as [names Hn].
  apply (comprehension_present tag_term "term") in Htg as [terms Ht].
  apply scan_reads_defined in Hls as [h Hh].
  destruct (StrFacts.index_last_split slash id) as [seg Hseg].
  unfold parse_entry.
  rewrite Eal, Hps, Hus, Els, Hid, Hti, Hsu, Etg. simpl.
  rewrite Hn. simpl. rewrite Hdp. simpl. rewrite Hdu. simpl.
  rewrite Hh. simpl. rewrite Hseg. simpl. rewrite Ht. simpl. eauto.
Qed.

(** Only a readable entry gives a record. *)
Lemma parses_readable (w : World) (e : Entry) (p : Paper) :
  parse_entry w e = Ok p -> readable w e = true.
Proof.
  intros H.
  destruct (parse_entry_Ok w e p H)
    as (id & ls & al & tg & ps & us & Hid & _ & _ & Hti & Hsu & Hls & Hh
        & Hal & Hn & Htg & Ht & Hps & Hdp & Hus & Hdu & _).
  unfold readable. rewrite Hid, Hti, Hsu, Hps, Hus, Hal, Hls, Htg.
  simpl. rewrite Hdp, Hdu. simpl.
  rewrite !andb_true_iff. repeat split.
  - apply (comprehension_present author_name "name"). eauto.
  - apply scan_reads_defined. eauto.
  - apply (comprehension_present tag_term "term"). eauto.
Qed.

(** The try body of the loop raises exactly on the entries that are not
    readable. *)
Lemma well_formed_readable (w : World) (e : Entry) :
  well_formed w e = readable w e.
Proof.
  unfold well_formed.
  destruct (parse_entry w e) as [p|ex] eqn:E.
  - symmetry. exact (parses_readable w e p E).
  - destruct (readable w e) eqn:R; [|reflexivity].
    destruct (readable_parses w e R) as [p Hp]. congruence.
Qed.

(** An entry that conforms to the feed format is readable. *)
Lemma conforms_readable (w : World) (e : Entry) :
  conforms w e = true -> readable w e = true.
Proof.
  unfold conforms, readable. rewrite !andb_true_iff.
  intros [[[[[[[Hid Hti] Hsu] Hps] Hus] Hal] Hls] Htg].
  repeat split; auto.
  - destruct (entry_links e) as [ls|]; [|discriminate].
    induction ls as [|l ls IH]; simpl in *; [reflexivity|].
    apply andb_true_iff in Hls as [Hl Hls].
    apply andb_true_iff in Hl as [Hty Hh].
    destruct (link_type l) as [ty|]; [|discriminate].
    destruct (Str.eqb ty pdf_type); auto.
  - destruct (entry_tags e) as [tg|]; [|discriminate].
    induction tg as [|t tg IH]; simpl in *; [reflexivity|].
    apply andb_true_iff in Htg as [Ht Htg].
    rewrite (IH Htg), andb_true_r.
    destruct (tag_term t) as [[s|]|]; [reflexivity|discriminate..].
Qed.

(** The record built from an entry describes it field by field. *)
Lemma parse_describes (w : World) (e : Entry) (p : Paper) :
  parse_entry w e = Ok p -> describes w e p.
Proof.
  intros H.
  destruct (parse_entry_Ok w e p H)
    as (id & ls & al & tg & ps & us & Hid & Hseg & Hurl & Hti & Hsu & Hls
        & Hh & Hal & Hn & Htg & Ht & Hps & Hdp & Hus & Hdu & Hsrc & Hkw
        & Hdoi).
  exists id, al, ls, tg, ps, us. repeat split; auto.
  - exact (proj1 (StrFacts.last_piece slash id (paper_id p) Hseg)).
  - exact (proj2 (StrFacts.last_piece slash id (paper_id p) Hseg)).
  - exact (comprehension_map author_name "name" al (authors p) Hn).
  - exact (next_pdf_href_spec ls (pdf_url p) Hh).
  - exact (comprehension_map tag_term "term" tg (categories p) Ht).
Qed.

Lemma parsed_describes (w : World) (es : list Entry) :
  Forall2 (describes w) (filter (readable w) es) (parsed w es).
Proof.
  induction es as [|e es IH]; simpl; [constructor|].
  rewrite <- well_formed_readable. unfold well_formed.
  destruct (parse_entry w e) as [p|] eqn:E; [|exact IH].
  constructor; [exact (parse_describes w e p E)|exact IH].
Qed.

Lemma diagnostics_dropped (w : World) (es : list Entry) :
  Forall (is_diagnostic w) (diagnostics w es)
  /\ List.length (diagnostics w es)
     = List.length (filter (fun e => negb (readable w e)) es).
Proof.
  induction es as [|e es [IH1 IH2]]; simpl; [split; [constructor|reflexivity]|].
  rewrite <- well_formed_readable. unfold well_formed.
  destruct (parse_entry w e) as [p|ex]; simpl; [split; assumption|].
  split; [|now rewrite IH2].
  constructor; [exists ex; reflexivity|exact IH1].
Qed.

(** The claim of C3 fails as stated: an entry with a category that has no
    term is malformed, yet [search] does not drop it and prints nothing;
    it returns a record for it whose categories hold [None]. *)
Lemma search_keeps_termless_category :
  conforms Cases.termless_world Cases.entry_termless = false
  /\ response_entries Cases.termless_world Sample.ok_response
     = [Cases.entry_termless]
  /\ option_map (List.map categories)
                (returned (search Cases.termless_world (lit "q") 10))
     = Some [[None]]
  /\ snd (search Cases.termless_world (lit "q") 10)
     = [HttpGet BASE_URL (search_params (lit "q") 10)].
Proof. repeat split. Qed.

(** An entry with a link without address after its PDF link does not
    conform either and is kept as well. *)
Example search_keeps_trailing_link :
  conforms Sample.two_world Cases.entry_trailing_link = false
  /\ option_map pdf_url
                (returned (lift (parse_entry Sample.two_world
                                             Cases.entry_trailing_link)))
     = Some (lit "http://arxiv.org/pdf/2107.12345v1").
Proof. split; reflexivity. Qed.

(** C3, amended: when the request completes, [search] does not raise.  It
    drops, with one diagnostic line each, exactly the entries that are not
    readable, that is, those on which an attribute the loop reads is
    missing, a timestamp is rejected, an author has no name, a tag has no
    [term] attribute, or the search for the PDF link meets a link without
    type or a PDF link without address.  It returns, in feed order, one
    record for each readable entry, with every field built from that
    entry; every entry that conforms to the feed format is among them. *)
Theorem search_drops_unreadable_entries
        (w : World) (query : str) (k : Z) (resp : Response) :
  requests_get w BASE_URL (search_params query k) = Ok resp ->
  exists papers lines,
    search w query k
    = (Ok papers, HttpGet BASE_URL (search_params query k) :: lines)
    /\ Forall2 (describes w)
               (filter (readable w) (response_entries w resp)) papers
    /\ Forall (is_diagnostic w) lines
    /\ List.length lines
       = List.length (filter (fun e => negb (readable w e))
                             (response_entries w resp))
    /\ (forall e, conforms w e = true -> readable w e = true).
Proof.
  intros H. rewrite (search_completed w query k resp H).
  do 2 eexists. split; [reflexivity|].
  destruct (diagnostics_dropped w (response_entries w resp)) as [Hd Hn].
  split; [apply parsed_describes|].
  split; [exact Hd|]. split; [exact Hn|].
  exact (conforms_readable w).
Qed.

Lemma search_drops_unreadable_entries_witness :
  requests_get Sample.mixed_world BASE_URL (search_params (lit "q") 10)
  = Ok Sample.ok_response
  /\ exists papers lines,
    search Sample.mixed_world (lit "q") 10
    = (Ok papers, HttpGet BASE_URL (search_params (lit "q") 10) :: lines)
    /\ Forall2 (describes Sample.mixed_world)
               [Sample.entry_A; Sample.entry_B] papers
    /\ Forall (is_diagnostic Sample.mixed_world) lines
    /\ List.length lines = 1
    /\ (forall e,
          conforms Sample.mixed_world e = true ->
          readable Sample.mixed_world e = true).
Proof.
  split; [reflexivity|].
  exact (search_drops_unreadable_entries Sample.mixed_world (lit "q") 10
                                         Sample.ok_response eq_refl).
Defined.

End DropProperties.
